(** * Mount-point state machine of the virtual-media daemon

    A shallow embedding of [src/state_machine.hpp] (and of the way
    [src/main.cpp] drives it): the per-slot state variant, the events and
    their handlers, [emitEvent] with the [onEnter] hooks, the D-Bus
    property getters and the blocking [Mount] / [Unmount] methods.

    Conventions of the embedding.
    - The machine and the part of the system it acts on (scratch
      directories, CIFS mounts, the trace of outward calls, the timer, the
      stack buffer of the legacy [Mount] method) form one record, [World],
      threaded through a state-and-exception monad [M].
    - A C++ exception is the result [Throw]; dereferencing an empty
      [std::optional] is the result [Undefined].
    - Results of external helpers (CIFS mount, process spawn, gadget
      configuration, ...) are read from an [Env] record supplied with every
      event: the helpers are collaborators, not part of the machine.
    - [LogMsg] calls are not modelled: logging has no effect on the machine. *)

From Stdlib Require Import String Ascii List ZArith Bool Arith Lia.
Import ListNotations.
Local Open Scope string_scope.
Local Open Scope list_scope.

Set Implicit Arguments.

(* ------------------------------------------------------------------ *)
(** ** Data model *)

(** [std::errc] values used by the machine, with their [static_cast<int>]
    (the POSIX errno numbers of Linux). *)
Inductive errc : Type :=
| io_error
| invalid_argument
| device_or_resource_busy
| operation_canceled
| operation_not_supported.

Definition errc_int (e : errc) : Z :=
  match e with
  | io_error => 5
  | invalid_argument => 22
  | device_or_resource_busy => 16
  | operation_canceled => 125
  | operation_not_supported => 95
  end%Z.

Definition EPERM : Z := 1.
Definition EINVAL : Z := 22.

(** [MountPointStateMachine::Error]. *)
Record Error : Type := mkError { code : errc; message : string }.

(** Modelled from the spec: [system.hpp] is not among the sources; the
    device monitor delivers [{device, inserted|removed}] notifications, and
    the source names [StateChange::inserted] and [StateChange::removed]. *)
Inductive StateChange : Type := inserted | removed.

Definition StateChange_eqb (a b : StateChange) : bool :=
  match a, b with
  | inserted, inserted | removed, removed => true
  | _, _ => false
  end.

(** [Configuration::Mode] and the fields of [Configuration::MountPoint] the
    machine reads. *)
Inductive Mode : Type := proxy | legacy.

Definition NBDDevice : Type := string.
Definition path : Type := string.

Record MountPoint : Type := mkMountPoint {
  mode : Mode;
  nbdDevice : NBDDevice;
  unixSocket : string;
  endPointId : string
}.

(** [utils::CredentialsProvider]: a user name and a secret. *)
Record CredentialsProvider : Type := mkCredentials {
  user : string;
  password : string
}.

(** [MountPointStateMachine::Target]. *)
Record Target : Type := mkTarget {
  imgUrl : string;
  rw : bool;
  mountDir : option path;
  credentials : option CredentialsProvider
}.

(** A [Process] object, and the [std::weak_ptr<Process>] the states hold. *)
Record Process : Type := mkProcess { app : string; device : NBDDevice }.
Definition weak_ptr_Process : Type := option Process.

(** [MountPointStateMachine::State], the variant over the six state
    structs, each with its data members. *)
Inductive State : Type :=
| InitialState
| ReadyState (error : option Error)
| ActivatingState
| WaitingForGadgetState (process : weak_ptr_Process)
| ActiveState (process : weak_ptr_Process)
| WaitingForProcessEndState (process : weak_ptr_Process).

(** The event structs derived from [BasicEvent]. *)
Inductive Event : Type :=
| RegisterDbusEvent
| MountEvent
| UnmountEvent
| SubprocessStoppedEvent
| ActivationStartedEvent
| UdevStateChangeEvent (devState : StateChange).

(** The data members of [MountPointStateMachine]. *)
Record MountPointStateMachine : Type := mkMachine {
  name : string;
  config : MountPoint;
  target : option Target;
  state : State;
  exitCode : Z
}.

Definition proxyObjectPath : string := "/xyz/openbmc_project/VirtualMedia/Proxy/".
Definition legacyObjectPath : string := "/xyz/openbmc_project/VirtualMedia/Legacy/".

Definition getObjectPath (m : MountPointStateMachine) : string :=
  match mode (config m) with
  | proxy => proxyObjectPath
  | legacy => legacyObjectPath
  end.

(** State predicates, the [std::get_if<...>] tests of the source. *)
Definition is_Ready (s : State) : bool :=
  match s with ReadyState _ => true | _ => false end.

Definition is_Active (s : State) : bool :=
  match s with ActiveState _ => true | _ => false end.

Definition is_WaitingForGadget (s : State) : bool :=
  match s with WaitingForGadgetState _ => true | _ => false end.

(** The states the specification calls the active lifecycle. *)
Definition active_lifecycle (s : State) : bool :=
  match s with
  | ActivatingState | WaitingForGadgetState _ | ActiveState _
  | WaitingForProcessEndState _ => true
  | InitialState | ReadyState _ => false
  end.

Definition ready_error (s : State) : option Error :=
  match s with ReadyState e => e | _ => None end.

(* ------------------------------------------------------------------ *)
(** ** The system around the machine *)

(** Redfish message types passed to [sendEvent]. *)
Inductive MESSAGE_TYPE : Type := RESOURCE_CREATED | RESOURCE_DELETED.

(** Outward calls; the world keeps them in a list, the newest at its head. *)
Inductive Action : Type :=
| AddInterface (objPath iface : string)
| ForceUdevChange
| SendEvent (msg : MESSAGE_TYPE) (dbusObjectPath : string)
| GadgetConfigure (slot : string) (dev : NBDDevice) (change : StateChange)
                  (rwArg : option bool)
| ProcessSpawn (p : Process) (args : list string)
| ProcessStop (p : Process)
| SmbCreateMountDir (slot : string)
| SmbMount (dir : path) (remoteParent : string) (rwArg : bool)
           (creds : option CredentialsProvider)
| SmbUnmount (dir : path)
| FsRemoveAll (dir : path)
| FsRemove (file : string)
| SecretFile (secret : string) (file : path).

(** What [std::filesystem::remove(path)] does with a path: it returns true
    when it removed the file, false when there was no file to remove, and
    throws [std::filesystem::filesystem_error] when the file is there and
    cannot be removed. *)
Inductive RemoveResult : Type :=
| remove_true
| remove_false
| remove_throws.

(** Results of the external helpers during the handling of one event. *)
Record Env : Type := mkEnv {
  createMountDir_ret : option path;  (* SmbShare::createMountDir *)
  smb_mount_ret : bool;              (* SmbShare::mount *)
  socket_exists : bool;              (* fs::exists(config.unixSocket) *)
  socket_remove_ret : RemoveResult;  (* fs::remove(config.unixSocket) *)
  spawn_ret : bool;                  (* Process::spawn *)
  secret_path : path;                (* utils::VolatileFile::path *)
  gadget_ret : Z;                    (* UsbGadget::configure *)
  lock_ret : bool                    (* weak_ptr<Process>::lock() != nullptr *)
}.

Record World : Type := mkWorld {
  machine : MountPointStateMachine;
  dirs : list path;            (* scratch directories that exist *)
  mounts : list path;          (* directories with a CIFS share mounted *)
  trace : list Action;         (* outward calls, newest first *)
  clock_ms : nat;              (* time spent in timer waits *)
  raw_buf : option (list ascii) (* contents left in the Mount method's buf *)
}.

(** Constants and helper functions declared in headers that are not among
    the sources ([utils.hpp], [system.hpp], [configuration.hpp], [smb.hpp])
    or in [std::filesystem]; the machine is parametric in them. *)
Record Externals : Type := mkExternals {
  secretLimit : nat;                          (* utils::secretLimit *)
  StateChange_int : StateChange -> nat;       (* static_cast<int>(devState) *)
  toArgs : MountPoint -> list string;         (* Configuration::MountPoint::toArgs *)
  parent_path : path -> path;                 (* fs::path::parent_path *)
  filename : path -> path;                    (* fs::path::filename *)
  path_append : path -> path -> path;         (* fs::path operator/ *)
  unmount_removes_dir : bool                  (* see [SmbShare_unmount] *)
}.

(* ------------------------------------------------------------------ *)
(** ** The monad: world threading, exceptions, undefined behaviour *)

Inductive Exception : Type :=
| InvalidStateError (what : string)
| SdBusError (errno : Z) (what : string)
| system_error (what : string)
| filesystem_error (what : string).

Inductive Res (A : Type) : Type :=
| Val (a : A)
| Throw (e : Exception)
| Undefined (what : string)
| NoFuel.

Arguments Val {A} a.
Arguments Throw {A} e.
Arguments Undefined {A} what.
Arguments NoFuel {A}.

Definition M (A : Type) : Type := World -> Res A * World.

Definition ret {A} (a : A) : M A := fun w => (Val a, w).

Definition bind {A B} (m : M A) (f : A -> M B) : M B :=
  fun w =>
    match m w with
    | (Val a, w') => f a w'
    | (Throw e, w') => (Throw e, w')
    | (Undefined s, w') => (Undefined s, w')
    | (NoFuel, w') => (NoFuel, w')
    end.

Definition throw {A} (e : Exception) : M A := fun w => (Throw e, w).
Definition undefined {A} (what : string) : M A := fun w => (Undefined what, w).

(** [try { body } catch (...) { handler }]: only C++ exceptions are caught. *)
Definition try_catch {A} (body : M A) (handler : Exception -> M A) : M A :=
  fun w =>
    match body w with
    | (Throw e, w') => handler e w'
    | r => r
    end.

Declare Scope machine_scope.
Delimit Scope machine_scope with machine.
Notation "x <- m ;; k" := (bind m (fun x => k))
  (at level 61, m at next level, right associativity) : machine_scope.
Notation "m ;; k" := (bind m (fun _ => k))
  (at level 61, right associativity) : machine_scope.
Local Open Scope machine_scope.

Definition get_machine : M MountPointStateMachine := fun w => (Val (machine w), w).

Definition set_machine (m : MountPointStateMachine) : M unit :=
  fun w => (Val tt, mkWorld m (dirs w) (mounts w) (trace w) (clock_ms w) (raw_buf w)).

Definition set_state (s : State) : M unit :=
  m <- get_machine ;;
  set_machine (mkMachine (name m) (config m) (target m) s (exitCode m)).

Definition set_target (t : option Target) : M unit :=
  m <- get_machine ;;
  set_machine (mkMachine (name m) (config m) t (state m) (exitCode m)).

Definition set_exitCode (c : Z) : M unit :=
  m <- get_machine ;;
  set_machine (mkMachine (name m) (config m) (target m) (state m) c).

(** [*machine.target] / [machine.target->...]: the optional must hold a value. *)
Definition deref_target : M Target :=
  m <- get_machine ;;
  match target m with
  | Some t => ret t
  | None => undefined "machine.target accessed while empty"
  end.

Definition act (a : Action) : M unit :=
  fun w => (Val tt, mkWorld (machine w) (dirs w) (mounts w) (a :: trace w)
                            (clock_ms w) (raw_buf w)).

Definition set_dirs (d : list path) : M unit :=
  fun w => (Val tt, mkWorld (machine w) d (mounts w) (trace w) (clock_ms w) (raw_buf w)).

Definition set_mounts (d : list path) : M unit :=
  fun w => (Val tt, mkWorld (machine w) (dirs w) d (trace w) (clock_ms w) (raw_buf w)).

Definition set_raw_buf (b : list ascii) : M unit :=
  fun w => (Val tt, mkWorld (machine w) (dirs w) (mounts w) (trace w) (clock_ms w) (Some b)).

Definition tick (ms : nat) : M unit :=
  fun w => (Val tt, mkWorld (machine w) (dirs w) (mounts w) (trace w)
                            (clock_ms w + ms) (raw_buf w)).

Definition path_in (d : path) (l : list path) : bool := existsb (String.eqb d) l.

Definition path_remove (d : path) (l : list path) : list path :=
  filter (fun x => negb (String.eqb d x)) l.

(* ------------------------------------------------------------------ *)
(** ** The machine *)

Section Machine.

Variable X : Externals.

(** *** Helpers outside the machine *)

(** Modelled from the spec: [smb.hpp] is not among the sources.
    [createMountDir(slot)] creates a scratch directory and returns its path,
    or fails. *)
Definition SmbShare_createMountDir (env : Env) : M (option path) :=
  m <- get_machine ;;
  act (SmbCreateMountDir (name m)) ;;
  match createMountDir_ret env with
  | Some d =>
      w <- (fun w => (Val w, w)) ;;
      set_dirs (d :: path_remove d (dirs w)) ;;
      ret (Some d)
  | None => ret None
  end.

(** Modelled from the spec: [mount(remoteParent, rw, credentials)] mounts
    the remote share on the scratch directory of the [SmbShare] object and
    reports success. *)
Definition SmbShare_mount (dir : path) (remoteParent : string) (rwArg : bool)
    (creds : option CredentialsProvider) (env : Env) : M bool :=
  act (SmbMount dir remoteParent rwArg creds) ;;
  if smb_mount_ret env
  then w <- (fun w => (Val w, w)) ;;
       set_mounts (dir :: path_remove dir (mounts w)) ;;
       ret true
  else ret false.

(** Modelled from the spec: [unmount(dir)] unmounts the share.  The spec
    lists "unmounts, removes dir" for the helper in one place and says
    "unmount(dir) unmounts" in another; [unmount_removes_dir] selects
    whether the directory is removed as well. *)
Definition SmbShare_unmount (dir : path) : M unit :=
  act (SmbUnmount dir) ;;
  w <- (fun w => (Val w, w)) ;;
  set_mounts (path_remove dir (mounts w)) ;;
  if unmount_removes_dir X then set_dirs (path_remove dir (dirs w)) else ret tt.

(** [fs::remove_all(dir)]. *)
Definition fs_remove_all (dir : path) : M unit :=
  act (FsRemoveAll dir) ;;
  w <- (fun w => (Val w, w)) ;;
  set_dirs (path_remove dir (dirs w)).

(** [sendEvent(bus, type, Informational, {}, dbusObjectPath)]. *)
Definition sendEvent (msg : MESSAGE_TYPE) (dbusObjectPath : string) : M unit :=
  act (SendEvent msg dbusObjectPath).

(** *** Helper functions of the machine *)

Definition removeUsbGadget (env : Env) : M bool :=
  m <- get_machine ;;
  act (GadgetConfigure (name m) (nbdDevice (config m)) removed None) ;;
  if Z.eqb (gadget_ret env) 0 then ret true else ret false.

Definition stopProcess (env : Env) (process : weak_ptr_Process) : M unit :=
  match process with
  | Some p => if lock_ret env then act (ProcessStop p) else ret tt
  | None => ret tt
  end.

(** *** [BasicEvent]: the default handler of every state

    [transitionError] logs; the state is returned as it is. *)
Definition BasicEvent_call (s : State) : M State := ret s.

(** *** [RegisterDbusEvent] *)

Definition addMountPointInterface : M unit :=
  m <- get_machine ;;
  act (AddInterface (getObjectPath m ++ name m)
                    "xyz.openbmc_project.VirtualMedia.MountPoint").

Definition addProcessInterface : M unit :=
  m <- get_machine ;;
  act (AddInterface (getObjectPath m ++ name m)
                    "xyz.openbmc_project.VirtualMedia.Process").

Definition addServiceInterface (isLegacy : bool) : M unit :=
  m <- get_machine ;;
  act (AddInterface (getObjectPath m ++ name m)
         ("xyz.openbmc_project.VirtualMedia." ++ (if isLegacy then "Legacy" else "Proxy"))).

Definition RegisterDbusEvent_Initial : M State :=
  m <- get_machine ;;
  let isLegacy := match mode (config m) with legacy => true | proxy => false end in
  addMountPointInterface ;;
  addProcessInterface ;;
  addServiceInterface isLegacy ;;
  act ForceUdevChange ;;
  ret (ReadyState None).

(** *** [MountEvent] *)

Definition MountEvent_Ready : M State := ret ActivatingState.

(** *** [UnmountEvent] *)

Definition UnmountEvent_Activating : M State := ret (ReadyState None).

Definition UnmountEvent_WaitingForGadget (env : Env) (process : weak_ptr_Process)
    : M State :=
  stopProcess env process ;;
  ret (WaitingForProcessEndState process).

Definition UnmountEvent_Active (env : Env) (process : weak_ptr_Process) : M State :=
  ok <- removeUsbGadget env ;;
  if negb ok
  then ret (ReadyState (Some (mkError device_or_resource_busy
                                      "Unable to unmount gadget")))
  else
    stopProcess env process ;;
    m <- get_machine ;;
    sendEvent RESOURCE_DELETED (getObjectPath m ++ name m) ;;
    ret (WaitingForProcessEndState process).

Definition UnmountEvent_WaitingForProcessEnd : M State :=
  throw (InvalidStateError "Could not unmount on empty slot").

Definition UnmountEvent_Ready : M State :=
  throw (InvalidStateError "Could not unmount on empty slot").

(** *** [SubprocessStoppedEvent] *)

Definition SubprocessStoppedEvent_Activating : M State := ret (ReadyState None).

Definition SubprocessStoppedEvent_WaitingForGadget (env : Env)
    (process : weak_ptr_Process) : M State :=
  stopProcess env process ;;
  ret (ReadyState (Some (mkError io_error "Process ended prematurely"))).

Definition SubprocessStoppedEvent_Active (env : Env) : M State :=
  ok <- removeUsbGadget env ;;
  if negb ok
  then ret (ReadyState (Some (mkError device_or_resource_busy
                                      "Unable to unmount gadget")))
  else ret (ReadyState None).

Definition SubprocessStoppedEvent_WaitingForProcessEnd : M State :=
  ret (ReadyState None).

(** *** [ActivationStartedEvent] *)

(** [std::make_shared<Process>(ioc, name, app, dev)]: never a null pointer;
    the [!process] branches of the source are kept as they are written. *)
Definition make_shared_Process (a : string) (dev : NBDDevice) : option Process :=
  Some (mkProcess a dev).

(** [process->spawn(args, callback)]. *)
Definition Process_spawn (env : Env) (p : Process) (args : list string) : M bool :=
  act (ProcessSpawn p args) ;;
  ret (spawn_ret env).

Definition checkUrl (urlScheme imageUrl : string) : bool :=
  String.eqb urlScheme (substring 0 (String.length urlScheme) imageUrl).

(** The [bool] result and the [imagePath] out-parameter as an option. *)
Definition getImagePathFromUrl (urlScheme imageUrl : string) : option string :=
  if checkUrl urlScheme imageUrl
  then Some (substring (String.length urlScheme - 1) (String.length imageUrl) imageUrl)
  else None.

Definition isHttpsUrl (imageUrl : string) : bool := checkUrl "https://" imageUrl.
Definition isCifsUrl (imageUrl : string) : bool := checkUrl "smb://" imageUrl.

Definition getImagePathFromHttpsUrl (imageUrl : string) : option string :=
  getImagePathFromUrl "https://" imageUrl.

Definition getImagePathFromCifsUrl (imageUrl : string) : option string :=
  getImagePathFromUrl "smb://" imageUrl.

Definition getImagePath (imageUrl : string) : path :=
  match getImagePathFromHttpsUrl imageUrl with
  | Some p => p
  | None =>
      match getImagePathFromCifsUrl imageUrl with
      | Some p => p
      | None => ""
      end
  end.

Definition activateProxyMode (env : Env) : M State :=
  m <- get_machine ;;
  match make_shared_Process "/usr/sbin/nbd-client" (nbdDevice (config m)) with
  | None => ret (ReadyState (Some (mkError operation_canceled
                                           "Failed to allocate process")))
  | Some p =>
      ok <- Process_spawn env p (toArgs X (config m)) ;;
      if negb ok
      then ret (ReadyState (Some (mkError operation_canceled
                                          "Failed to spawn process")))
      else ret (WaitingForGadgetState (Some p))
  end.

(** [fs::remove(machine.config.unixSocket)], called without an
    [error_code]: a socket that cannot be removed is reported by an
    exception, which nothing in the machine catches. *)
Definition fs_remove (env : Env) (file : string) : M bool :=
  act (FsRemove file) ;;
  match socket_remove_ret env with
  | remove_true => ret true
  | remove_false => ret false
  | remove_throws => throw (filesystem_error "filesystem error: cannot remove")
  end.

(** [spawnNbdKit(machine, secret, params)]; the secret file, when there is
    one, is owned by the completion callback. *)
Definition spawnNbdKit (env : Env) (params : list string) : M (option Process) :=
  m <- get_machine ;;
  match make_shared_Process "/usr/sbin/nbdkit" (nbdDevice (config m)) with
  | None => ret None
  | Some p =>
      removed_ok <-
        (if socket_exists env
         then fs_remove env (unixSocket (config m))
         else ret true) ;;
      if negb removed_ok then ret None
      else
        let nbd_client :=
          ("/usr/sbin/nbd-client " ++ String.concat " " (toArgs X (config m)))%string in
        let args := ["--unix"; unixSocket (config m); "--run"; nbd_client] in
        t <- deref_target ;;
        let args := if negb (rw t) then args ++ ["--readonly"] else args in
        let args := args ++ params in
        ok <- Process_spawn env p args ;;
        if negb ok then ret None else ret (Some p)
  end.

Definition spawnNbdKit_file (env : Env) (file : path) : M (option Process) :=
  spawnNbdKit env ["file"; ("file=" ++ file)%string].

Definition spawnNbdKit_url (env : Env) (url : string) : M (option Process) :=
  let params := ["curl"; "sslverify=false"; ("url=" ++ url)%string] in
  t <- deref_target ;;
  match credentials t with
  | Some c =>
      act (SecretFile (password c) (secret_path env)) ;;
      spawnNbdKit env (params ++ [("user=" ++ user c)%string;
                                  ("password=+" ++ secret_path env)%string])
  | None => spawnNbdKit env params
  end.

Definition mountSmbShare (env : Env) : M State :=
  mountDirOpt <- SmbShare_createMountDir env ;;
  match mountDirOpt with
  | None => ret (ReadyState (Some (mkError io_error
                                           "Failed to create mount directory")))
  | Some dir =>
      t <- deref_target ;;
      let remote := getImagePath (imgUrl t) in
      let remoteParent := ("/" ++ parent_path X remote)%string in
      let localFile := path_append X dir (filename X remote) in
      mounted <- SmbShare_mount dir remoteParent (rw t) (credentials t) env ;;
      if negb mounted
      then
        fs_remove_all dir ;;
        ret (ReadyState (Some (mkError invalid_argument
                                       "Failed to mount CIFS share")))
      else
        process <- spawnNbdKit_file env localFile ;;
        match process with
        | None =>
            SmbShare_unmount dir ;;
            ret (ReadyState (Some (mkError operation_canceled
                                           "Unable to setup NbdKit")))
        | Some p =>
            t' <- deref_target ;;
            set_target (Some (mkTarget (imgUrl t') (rw t') (Some dir) (credentials t'))) ;;
            ret (WaitingForGadgetState (Some p))
        end
  end.

Definition mountHttpsShare (env : Env) : M State :=
  t <- deref_target ;;
  process <- spawnNbdKit_url env (imgUrl t) ;;
  match process with
  | None => ret (ReadyState (Some (mkError invalid_argument
                                           "Failed to mount HTTPS share")))
  | Some p => ret (WaitingForGadgetState (Some p))
  end.

Definition activateLegacyMode (env : Env) : M State :=
  t <- deref_target ;;
  if isCifsUrl (imgUrl t) then mountSmbShare env
  else if isHttpsUrl (imgUrl t) then mountHttpsShare env
  else ret (ReadyState (Some (mkError invalid_argument "URL not recognized"))).

Definition ActivationStartedEvent_Activating (env : Env) : M State :=
  m <- get_machine ;;
  match mode (config m) with
  | proxy => activateProxyMode env
  | legacy => activateLegacyMode env
  end.

(** *** [UdevStateChangeEvent] *)

(** ["Unexpected udev event: " + static_cast<int>(devState)]: the addition
    moves the pointer into the literal; past its end the result is not
    defined. *)
Definition unexpected_udev_message (devState : StateChange) : M string :=
  let lit := "Unexpected udev event: " in
  let n := StateChange_int X devState in
  if Nat.leb n (String.length lit)
  then ret (substring n (String.length lit) lit)
  else undefined "pointer past the end of a string literal".

Definition UdevStateChangeEvent_WaitingForGadget (env : Env)
    (devState : StateChange) (process : weak_ptr_Process) : M State :=
  if StateChange_eqb devState inserted
  then
    m <- get_machine ;;
    let rwArg := match target m with Some t => rw t | None => false end in
    act (GadgetConfigure (name m) (nbdDevice (config m)) devState (Some rwArg)) ;;
    if Z.eqb (gadget_ret env) 0
    then
      sendEvent RESOURCE_CREATED (getObjectPath m ++ name m) ;;
      ret (ActiveState process)
    else ret (ReadyState (Some (mkError device_or_resource_busy
                                        "Unable to configure gadget")))
  else
    msg <- unexpected_udev_message devState ;;
    ret (ReadyState (Some (mkError operation_not_supported msg))).

Definition UdevStateChangeEvent_Ready (error : option Error) : M State :=
  ret (ReadyState error).

(** *** Dispatch: [std::visit(event, state)]

    [emitEvent] visits through a [BasicEvent] reference, so the call is
    resolved among the virtual [operator()] overloads of [BasicEvent] and
    dispatched to the override of the event struct when it declares one for
    that state.  The member templates [operator()(const AnyState&)] of
    [RegisterDbusEvent], [MountEvent] and [UdevStateChangeEvent] are not
    overrides and are not candidates of that call: in the states they were
    written for, the default handler of [BasicEvent] runs. *)
Definition visit (env : Env) (ev : Event) (s : State) : M State :=
  match ev, s with
  | RegisterDbusEvent, InitialState => RegisterDbusEvent_Initial
  | MountEvent, ReadyState _ => MountEvent_Ready
  | UnmountEvent, ActivatingState => UnmountEvent_Activating
  | UnmountEvent, WaitingForGadgetState p => UnmountEvent_WaitingForGadget env p
  | UnmountEvent, ActiveState p => UnmountEvent_Active env p
  | UnmountEvent, WaitingForProcessEndState _ => UnmountEvent_WaitingForProcessEnd
  | UnmountEvent, ReadyState _ => UnmountEvent_Ready
  | SubprocessStoppedEvent, ActivatingState => SubprocessStoppedEvent_Activating
  | SubprocessStoppedEvent, WaitingForGadgetState p =>
      SubprocessStoppedEvent_WaitingForGadget env p
  | SubprocessStoppedEvent, ActiveState _ => SubprocessStoppedEvent_Active env
  | SubprocessStoppedEvent, WaitingForProcessEndState _ =>
      SubprocessStoppedEvent_WaitingForProcessEnd
  | ActivationStartedEvent, ActivatingState => ActivationStartedEvent_Activating env
  | UdevStateChangeEvent d, WaitingForGadgetState p =>
      UdevStateChangeEvent_WaitingForGadget env d p
  | UdevStateChangeEvent _, ReadyState e => UdevStateChangeEvent_Ready e
  | _, _ => BasicEvent_call s
  end.

(** *** [onEnter] hooks and [emitEvent] *)

Definition ReadyState_onEnter : M unit :=
  m <- get_machine ;;
  match target m with
  | Some t =>
      match mountDir t with
      | Some dir => SmbShare_unmount dir
      | None => ret tt
      end ;;
      set_target None
  | None => ret tt
  end.

(** [ActivatingState::onEnter], given [emitActivationStartedEvent]. *)
Definition ActivatingState_onEnter (emitActivationStartedEvent : M unit) : M unit :=
  set_exitCode (-1) ;;
  emitActivationStartedEvent.

Definition onEnter (emitActivationStartedEvent : M unit) (s : State) : M unit :=
  match s with
  | ReadyState _ => ReadyState_onEnter
  | ActivatingState => ActivatingState_onEnter emitActivationStartedEvent
  | _ => ret tt
  end.

(** [emitEvent] calls itself through [ActivatingState::onEnter]; [fuel]
    bounds the depth of that recursion ([emitEvent_fuel_enough] shows that
    depth two is never exceeded). *)
Fixpoint emitEvent_fuel (fuel : nat) (env : Env) (ev : Event) : M unit :=
  match fuel with
  | O => fun w => (NoFuel, w)
  | S fuel' =>
      m <- get_machine ;;
      s' <- visit env ev (state m) ;;
      set_state s' ;;
      onEnter (emitEvent_fuel fuel' env ActivationStartedEvent) s'
  end.

Definition emitEvent (env : Env) (ev : Event) : M unit := emitEvent_fuel 2 env ev.

Definition emitMountEvent (env : Env) : M unit := emitEvent env MountEvent.
Definition emitUnmountEvent (env : Env) : M unit := emitEvent env UnmountEvent.
Definition emitSubprocessStoppedEvent (env : Env) : M unit :=
  emitEvent env SubprocessStoppedEvent.
Definition emitRegisterDBusEvent (env : Env) : M unit := emitEvent env RegisterDbusEvent.

Definition emitUdevStateChangeEvent (env : Env) (dev : NBDDevice)
    (devState : StateChange) : M unit :=
  m <- get_machine ;;
  if String.eqb (nbdDevice (config m)) dev
  then emitEvent env (UdevStateChangeEvent devState)
  else ret tt.

(* ------------------------------------------------------------------ *)
(** ** The event loop seen from a blocked IPC method

    The IPC methods suspend in timer waits and in the pipe read.  While one
    is suspended the loop runs other callbacks on the same machine. *)

Inductive Activity : Type :=
| IpcUnmount (env : Env)
    (* the Unmount method called by another client: it emits the event, an
       InvalidStateError goes to that client, its polling only reads *)
| DeviceChange (dev : NBDDevice) (change : StateChange) (env : Env)
    (* the device monitor callback of main.cpp *)
| ProcessExit (code : Z) (env : Env).
    (* the completion callback given to Process::spawn *)

Definition run_activity (a : Activity) : M unit :=
  match a with
  | IpcUnmount env => try_catch (emitUnmountEvent env) (fun _ => ret tt)
  | DeviceChange dev change env => emitUdevStateChangeEvent env dev change
  | ProcessExit c env => set_exitCode c ;; emitSubprocessStoppedEvent env
  end.

Fixpoint run_activities (l : list Activity) : M unit :=
  match l with
  | [] => ret tt
  | a :: l' => run_activity a ;; run_activities l'
  end.

(** [timer.expires_from_now(100ms); timer.async_wait(yield)]: the callbacks
    in [meanwhile] run before the method resumes. *)
Definition timer_wait (meanwhile : list Activity) : M unit :=
  tick 100 ;;
  run_activities meanwhile.

(** What happens in the successive waits of one method call. *)
Definition Schedule : Type := list (list Activity).

(* ------------------------------------------------------------------ *)
(** ** IPC facade *)

(** *** Property getters

    The getters registered by [addProcessInterface] and
    [addMountPointInterface] that read the machine.  ([User] returns the
    macro [USER], which is not among the sources; [CDInstance] is a stored
    value the machine never reads.) *)

Definition Active_get : M bool :=
  m <- get_machine ;;
  if is_Active (state m) then ret true else ret false.

Definition ExitCode_get : M Z :=
  m <- get_machine ;;
  ret (exitCode m).

Definition ImageURL_get : M string :=
  m <- get_machine ;;
  if is_Active (state m)
  then t <- deref_target ;; ret (imgUrl t)
  else ret "".

Definition WriteProtected_get : M bool :=
  t <- deref_target ;;
  if negb (rw t) then ret true else ret false.

(** *** Methods *)

(** [catch (InvalidStateError& e) { throw SdBusError(EPERM, e.what()); }] *)
Definition as_EPERM {A} (e : Exception) : M A :=
  match e with
  | InvalidStateError what => throw (SdBusError EPERM what)
  | _ => throw e
  end.

Fixpoint Unmount_wait (waitCnt : nat) (sched : Schedule) : M unit :=
  match waitCnt with
  | O => ret tt
  | S n =>
      m <- get_machine ;;
      if is_Ready (state m) then ret tt
      else timer_wait (hd [] sched) ;; Unmount_wait n (tl sched)
  end.

Definition Unmount (env : Env) (sched : Schedule) : M bool :=
  try_catch (emitUnmountEvent env) as_EPERM ;;
  Unmount_wait 120 sched ;;
  ret true.

(** The [while (waitCnt > 0)] loop of [handleMount]. *)
Fixpoint handleMount_wait (waitCnt : nat) (sched : Schedule) : M bool :=
  match waitCnt with
  | O => ret false
  | S n =>
      m <- get_machine ;;
      match state m with
      | ReadyState (Some e) => throw (SdBusError (errc_int (code e)) (message e))
      | ReadyState None => ret false
      | ActiveState _ => ret true
      | _ => timer_wait (hd [] sched) ;; handleMount_wait n (tl sched)
      end
  end.

Definition handleMount (env : Env) (sched : Schedule) : M bool :=
  try_catch (emitMountEvent env) as_EPERM ;;
  handleMount_wait 120 sched.

(** The proxy specialisation of [Mount]. *)
Definition Mount_proxy (env : Env) (sched : Schedule) : M bool :=
  handleMount env sched.

(** The third argument of the legacy [Mount]: [std::variant<int, unix_fd>].
    For a pipe, [delivered] is what the writer has put in it and
    [during_read] what the loop runs while the read is pending. *)
Record PipeRead : Type := mkPipeRead {
  delivered : list ascii;
  during_read : list Activity
}.

Inductive optional_fd : Type :=
| fd_int (i : Z)
| fd_unix (pipe : PipeRead).

(** A NUL-terminated string starting at the head of [l]. *)
Fixpoint c_str (l : list ascii) : string :=
  match l with
  | [] => EmptyString
  | c :: l' => if Ascii.eqb c zero then EmptyString else String c (c_str l')
  end.

(** Modelled from the spec: [utils.hpp] is not among the sources;
    [utils::secureCleanup(buf)] zeroizes the buffer. *)
Definition secureCleanup (buf : list ascii) : list ascii :=
  map (fun _ => zero) buf.

(** [machine.target->credentials.reset()]. *)
Definition reset_credentials : M unit :=
  t <- deref_target ;;
  set_target (Some (mkTarget (imgUrl t) (rw t) (mountDir t) None)).

(** The part of the legacy [Mount] under [if (holds_alternative<unix_fd>(fd))].
    [garbage] is what the storage of the uninitialised [buf] holds. *)
Definition read_credentials (pipe : PipeRead) (garbage : nat -> ascii) : M unit :=
  let buf0 := map garbage (seq 0 (secretLimit X)) in
  set_raw_buf buf0 ;;
  run_activities (during_read pipe) ;;
  let size := Nat.min (List.length (delivered pipe)) (secretLimit X) in
  if Nat.eqb size 0 && negb (Nat.eqb (secretLimit X) 0)
  then throw (system_error "read_some: End of file")
  else
    let buf := firstn size (delivered pipe) ++ skipn size buf0 in
    set_raw_buf buf ;;
    let nullCount := count_occ ascii_dec (firstn size buf) zero in
    if negb (Nat.eqb nullCount 2)
    then throw (SdBusError EINVAL "Malformed extra data")
    else
      let usr := c_str buf in
      let pass := c_str (skipn (String.length usr + 1) buf) in
      t <- deref_target ;;
      set_target (Some (mkTarget (imgUrl t) (rw t) (mountDir t)
                                 (Some (mkCredentials usr pass)))) ;;
      set_raw_buf (secureCleanup buf).

(** The legacy specialisation of [Mount]. *)
Definition Mount_legacy (url : string) (rwArg : bool) (fd : optional_fd)
    (garbage : nat -> ascii) (env : Env) (sched : Schedule) : M bool :=
  set_target (Some (mkTarget url rwArg None None)) ;;
  match fd with
  | fd_unix pipe => read_credentials pipe garbage
  | fd_int _ => ret tt
  end ;;
  try_catch
    (r <- handleMount env sched ;;
     reset_credentials ;;
     ret r)
    (fun e => reset_credentials ;; throw e).

End Machine.

(* ------------------------------------------------------------------ *)
(** ** A concrete slot for the worked examples *)

Module Demo.

(** [StateChange_int] follows the order the enumerators are listed in;
    the path helpers split at the last slash. *)
Fixpoint last_slash (s : string) : option nat :=
  match s with
  | EmptyString => None
  | String c s' =>
      match last_slash s' with
      | Some n => Some (S n)
      | None => if Ascii.eqb c "/"%char then Some 0 else None
      end
  end.

Definition demo_parent_path (p : path) : path :=
  match last_slash p with
  | Some n => substring 0 n p
  | None => ""
  end.

Definition demo_filename (p : path) : path :=
  match last_slash p with
  | Some n => substring (S n) (String.length p) p
  | None => p
  end.

Definition externals (unmountRemoves : bool) : Externals :=
  mkExternals 1024
    (fun d => match d with inserted => 0 | removed => 1 end)
    (fun c => ["-u"; unixSocket c; nbdDevice c])
    demo_parent_path demo_filename
    (fun d f => (d ++ "/" ++ f)%string)
    unmountRemoves.

Definition slot (md : Mode) (slotName : string) : MountPointStateMachine :=
  mkMachine slotName
    (mkMountPoint md "/dev/nbd0" "/run/virtual-media/nbd0.sock" "/nbd/0")
    None InitialState (-1).

Definition boot (md : Mode) (slotName : string) : World :=
  mkWorld (slot md slotName) [] [] [] 0 None.

(** Every helper succeeds. *)
Definition fine : Env :=
  mkEnv (Some "/tmp/Slot_0") true false remove_true true "/tmp/secret" 0 true.

End Demo.


(* ------------------------------------------------------------------ *)
(** ** The application: [App] of [main.cpp]

    [App] owns one machine per configured mount point, in a map ordered by
    name; all machines act on the same system.  The map is the list of its
    entries in iteration order, and what the machines share is [Shared].
    (The [DeviceMonitor] the constructor registers the devices with is not
    among the sources; its callback is modelled, its bookkeeping is not.) *)

Record Shared : Type := mkShared {
  sh_dirs : list path;
  sh_mounts : list path;
  sh_trace : list Action;
  sh_clock : nat;
  sh_buf : option (list ascii)
}.

(** One machine at work on the shared system, and back. *)
Definition attach (m : MountPointStateMachine) (s : Shared) : World :=
  mkWorld m (sh_dirs s) (sh_mounts s) (sh_trace s) (sh_clock s) (sh_buf s).

Definition shared_of (w : World) : Shared :=
  mkShared (dirs w) (mounts w) (trace w) (clock_ms w) (raw_buf w).

(** [MountPointStateMachine::MountPointStateMachine]. *)
Definition new_machine (slotName : string) (entry : MountPoint)
    : MountPointStateMachine :=
  mkMachine slotName entry None InitialState (-1).

Section Application.

Variable X : Externals.

(** Helper results, by slot. *)
Variable env_of : string -> Env.

(** [for (auto& [name, entry] : mpsm) f(entry)]. *)
Fixpoint for_entries (f : MountPointStateMachine -> M unit)
    (mpsm : list MountPointStateMachine) (s : Shared)
    : Res unit * list MountPointStateMachine * Shared :=
  match mpsm with
  | [] => (Val tt, [], s)
  | m :: rest =>
      match f m (attach m s) with
      | (Val _, w') =>
          match for_entries f rest (shared_of w') with
          | (r, rest', s') => (r, machine w' :: rest', s')
          end
      | (Throw e, w') => (Throw e, machine w' :: rest, shared_of w')
      | (Undefined u, w') => (Undefined u, machine w' :: rest, shared_of w')
      | (NoFuel, w') => (NoFuel, machine w' :: rest, shared_of w')
      end
  end.

(** The loop of the constructor: create the machine of each mount point and
    register it. *)
Fixpoint App_construct (mountPoints : list (string * MountPoint)) (s : Shared)
    : Res unit * list MountPointStateMachine * Shared :=
  match mountPoints with
  | [] => (Val tt, [], s)
  | (slotName, entry) :: rest =>
      match emitRegisterDBusEvent X (env_of slotName)
              (attach (new_machine slotName entry) s) with
      | (Val _, w') =>
          match App_construct rest (shared_of w') with
          | (r, rest', s') => (r, machine w' :: rest', s')
          end
      | (Throw e, w') => (Throw e, [machine w'], shared_of w')
      | (Undefined u, w') => (Undefined u, [machine w'], shared_of w')
      | (NoFuel, w') => (NoFuel, [machine w'], shared_of w')
      end
  end.

(** The callback given to [devMonitor.run]. *)
Definition App_deviceChange (dev : NBDDevice) (change : StateChange)
    (mpsm : list MountPointStateMachine) (s : Shared)
    : Res unit * list MountPointStateMachine * Shared :=
  for_entries
    (fun m => emitUdevStateChangeEvent X (env_of (name m)) dev change) mpsm s.

End Application.

(* ------------------------------------------------------------------ *)
(** ** Concrete runs used by the examples *)

Module Run.

Import Demo.

Definition X0 : Externals := externals true.

(** A slot after registration, in [ReadyState]. *)
Definition registered (md : Mode) : World :=
  snd (emitRegisterDBusEvent X0 fine (boot md "Slot_0")).

(** A proxy slot after the Mount event: the NBD client runs, no udev
    event has arrived yet. *)
Definition proxy_waiting : World :=
  snd (emitMountEvent X0 fine (registered proxy)).

(** The proxy slot once the device has appeared. *)
Definition proxy_active : World :=
  snd (emitUdevStateChangeEvent X0 fine "/dev/nbd0" inserted proxy_waiting).

(** The same, seen from the polling Mount method: one wait has elapsed. *)
Definition after_one_wait : World :=
  snd (timer_wait X0 [DeviceChange "/dev/nbd0" inserted fine] proxy_waiting).

Definition nbd_client : Process := mkProcess "/usr/sbin/nbd-client" "/dev/nbd0".

(** The gadget helper answers with an error. *)
Definition gadget_fails : Env :=
  mkEnv (Some "/tmp/Slot_0") true false remove_true true "/tmp/secret" 1 true.


(** The NBD server cannot be spawned. *)
Definition spawn_fails : Env :=
  mkEnv (Some "/tmp/Slot_0") true false remove_true false "/tmp/secret" 0 true.

(** A legacy slot whose Mount method has stored a CIFS target and is about
    to emit the Mount event. *)
Definition cifs_target : Target :=
  mkTarget "smb://host/share/sub/file.iso" false None None.

Definition legacy_requested : World :=
  snd (set_target (Some cifs_target) (registered legacy)).

(** The bytes [alice\0]: a user name and a single NUL. *)
Definition alice_nul : list ascii :=
  (list_ascii_of_string "alice" ++ [zero])%list.

(** The bytes [alice\0s3cret\0]. *)
Definition alice_s3cret : list ascii :=
  (list_ascii_of_string "alice" ++ [zero] ++
   list_ascii_of_string "s3cret" ++ [zero])%list.

(** Stale bytes in the storage of the uninitialised buffer. *)
Definition stale : nat -> ascii := fun _ => "x"%char.

End Run.


(** Helper results for further worked examples. *)
Module Cases.

(** The scratch directory cannot be created. *)
Definition no_directory : Env :=
  mkEnv None true false remove_true true "/tmp/secret" 0 true.

(** A socket file of an earlier run exists and cannot be removed:
    [fs::remove] throws. *)
Definition stale_socket : Env :=
  mkEnv (Some "/tmp/Slot_0") true true remove_throws true "/tmp/secret" 0 true.

(** The socket file is seen by [fs::exists] and gone by the time
    [fs::remove] runs, which then returns false. *)
Definition vanished_socket : Env :=
  mkEnv (Some "/tmp/Slot_0") true true remove_false true "/tmp/secret" 0 true.

End Cases.
(* ------------------------------------------------------------------ *)
(** ** Vocabulary of the specification *)

Unset Implicit Arguments.

(** The Redfish events among a list of outward calls. *)
Definition redfish (l : list Action) : list (MESSAGE_TYPE * string) :=
  flat_map (fun a => match a with
                     | SendEvent msg p => [(msg, p)]
                     | _ => []
                     end) l.

Definition objectPath (m : MountPointStateMachine) : string :=
  (getObjectPath m ++ name m)%string.

(** Everything but the target, the directories and the trace. *)
Definition frame (w w1 : World) : Prop :=
  name (machine w1) = name (machine w) /\
  config (machine w1) = config (machine w) /\
  clock_ms w1 = clock_ms w /\
  raw_buf w1 = raw_buf w.

(** A handler at most records the scratch directory in the target. *)
Definition target_kept (t t1 : option Target) : Prop :=
  match t with
  | None => t1 = None
  | Some a => exists md, t1 = Some (mkTarget (imgUrl a) (rw a) md (credentials a))
  end.

Definition ReadyError (c : errc) (msg : string) : State :=
  ReadyState (Some (mkError c msg)).

(** The transition table: the states a handler can return. *)
Definition transition (ev : Event) (s s' : State) : Prop :=
  match ev, s with
  | RegisterDbusEvent, InitialState => s' = ReadyState None
  | MountEvent, ReadyState _ => s' = ActivatingState
  | UnmountEvent, ActivatingState => s' = ReadyState None
  | UnmountEvent, WaitingForGadgetState p => s' = WaitingForProcessEndState p
  | UnmountEvent, ActiveState p =>
      s' = WaitingForProcessEndState p \/
      s' = ReadyError device_or_resource_busy "Unable to unmount gadget"
  | UnmountEvent, WaitingForProcessEndState _ => False
  | UnmountEvent, ReadyState _ => False
  | SubprocessStoppedEvent, ActivatingState => s' = ReadyState None
  | SubprocessStoppedEvent, WaitingForGadgetState _ =>
      s' = ReadyError io_error "Process ended prematurely"
  | SubprocessStoppedEvent, ActiveState _ =>
      s' = ReadyState None \/
      s' = ReadyError device_or_resource_busy "Unable to unmount gadget"
  | SubprocessStoppedEvent, WaitingForProcessEndState _ => s' = ReadyState None
  | ActivationStartedEvent, ActivatingState =>
      (exists p, s' = WaitingForGadgetState (Some p)) \/
      (exists e, s' = ReadyState (Some e))
  | UdevStateChangeEvent inserted, WaitingForGadgetState p =>
      s' = ActiveState p \/
      s' = ReadyError device_or_resource_busy "Unable to configure gadget"
  | UdevStateChangeEvent removed, WaitingForGadgetState _ =>
      exists msg, s' = ReadyError operation_not_supported msg
  | _, _ => s' = s
  end.

(** The Redfish events a handler sends, by event, state and result. *)
Definition handler_events (m : MountPointStateMachine) (ev : Event) (s : State)
    (r : Res State) : list (MESSAGE_TYPE * string) :=
  match ev, s, r with
  | UdevStateChangeEvent _, WaitingForGadgetState _, Val (ActiveState _) =>
      [(RESOURCE_CREATED, objectPath m)]
  | UnmountEvent, ActiveState _, Val (WaitingForProcessEndState _) =>
      [(RESOURCE_DELETED, objectPath m)]
  | _, _, _ => []
  end.

Definition handler_result (ev : Event) (s : State) (r : Res State) : Prop :=
  match r with
  | Val s' => transition ev s s'
  | Throw e =>
      (ev = UnmountEvent /\
       (is_Ready s = true \/ exists p, s = WaitingForProcessEndState p) /\
       e = InvalidStateError "Could not unmount on empty slot") \/
      (ev = ActivationStartedEvent /\ s = ActivatingState /\
       exists what, e = filesystem_error what)
  | Undefined _ => True
  | NoFuel => False
  end.

Definition visit_post (ev : Event) (s : State) (w : World) (r : Res State)
    (w1 : World) : Prop :=
  frame w w1 /\
  state (machine w1) = state (machine w) /\
  exitCode (machine w1) = exitCode (machine w) /\
  target_kept (target (machine w)) (target (machine w1)) /\
  (exists new, trace w1 = new ++ trace w /\
               redfish new = handler_events (machine w) ev s r) /\
  handler_result ev s r.

(** *** What [emitEvent] does *)

(** [w1] continues [w]: same slot, same clock and buffer, the trace
    extended by calls whose Redfish events are [evs] (newest first). *)
Definition extends (w w1 : World) (evs : list (MESSAGE_TYPE * string)) : Prop :=
  frame w w1 /\
  exists new, trace w1 = new ++ trace w /\ redfish new = evs.

Definition with_state (s : State) (w : World) : World :=
  snd (set_state s w).

Definition with_exitCode (c : Z) (w : World) : World :=
  snd (set_exitCode c w).

(** One [emitEvent]: the handler, and the activation it starts when the
    handler returns [ActivatingState].  An exception leaves [emitEvent]
    either from the handler of [ev] itself, with nothing changed, or from
    the activation, with the slot in [ActivatingState]. *)
Definition step (ev : Event) (s s' : State) : Prop :=
  exists s1, transition ev s s1 /\
    match s1 with
    | ActivatingState => transition ActivationStartedEvent ActivatingState s'
    | _ => s' = s1
    end.

Definition emit_post (ev : Event) (w : World) (r : Res unit) (w' : World) : Prop :=
  let s := state (machine w) in
  let s' := state (machine w') in
  extends w w' (handler_events (machine w) ev s (Val s')) /\
  (target (machine w) = None -> target (machine w') = None) /\
  match r with
  | Val _ =>
      step ev s s' /\
      if is_Ready s' then target (machine w') = None
      else target_kept (target (machine w)) (target (machine w'))
  | Throw e =>
      (ev = UnmountEvent /\
       (is_Ready s = true \/ exists p, s = WaitingForProcessEndState p) /\
       e = InvalidStateError "Could not unmount on empty slot" /\ w' = w) \/
      ((exists what, e = filesystem_error what) /\ s' = ActivatingState /\
       target_kept (target (machine w)) (target (machine w')))
  | Undefined _ => s' = s \/ s' = ActivatingState
  | NoFuel => False
  end.

(** The Redfish events recorded between two worlds. *)
Definition emitted (w w' : World) : list (MESSAGE_TYPE * string) :=
  redfish (firstn (List.length (trace w') - List.length (trace w)) (trace w')).

(** The invariant P1 of the specification, for one world. *)
Definition target_iff_active (w : World) : Prop :=
  target (machine w) <> None <-> active_lifecycle (state (machine w)) = true.

(** *** Vocabulary for the polling loop of [handleMount] *)

(** The states at which the loop stops. *)
Definition terminal (s : State) : bool := is_Ready s || is_Active s.

(** What the loop answers when it finds the state [s] terminal. *)
Definition poll_outcome (s : State) : Res bool :=
  match s with
  | ReadyState (Some e) => Throw (SdBusError (errc_int (code e)) (message e))
  | ReadyState None => Val false
  | ActiveState _ => Val true
  | _ => Val false
  end.

(** The first [k] timer waits of a call, with what the loop runs in them. *)
Fixpoint run_waits (X : Externals) (k : nat) (sched : Schedule) : M unit :=
  match k with
  | O => ret tt
  | S k' => bind (timer_wait X (hd [] sched)) (fun _ => run_waits X k' (tl sched))
  end.

(** The first [k] polls find the state neither Ready nor Active. *)
Fixpoint polls_pending (X : Externals) (k : nat) (sched : Schedule) (w : World)
    : bool :=
  match k with
  | O => true
  | S k' =>
      negb (terminal (state (machine w))) &&
      polls_pending X k' (tl sched) (snd (timer_wait X (hd [] sched) w))
  end.

(** In Ready the target has been reset ([ReadyState::onEnter]). *)
Definition Ready_without_target (w : World) : Prop :=
  is_Ready (state (machine w)) = true -> target (machine w) = None.

(* ------------------------------------------------------------------ *)
(** ** Vocabulary for histories of events *)

(** One event delivered by the loop: an exception (the [InvalidStateError]
    of an Unmount, the [filesystem_error] of an activation) goes to the
    caller of the IPC method that emitted the event and does not stop the
    loop. *)
Definition deliver (X : Externals) (env : Env) (ev : Event) : M unit :=
  try_catch (emitEvent X env ev) (fun _ => ret tt).

(** A history: events applied one after the other, each with the results
    the helpers give while it is handled. *)
Fixpoint history (X : Externals) (h : list (Env * Event)) : M unit :=
  match h with
  | [] => ret tt
  | (env, ev) :: h' => bind (deliver X env ev) (fun _ => history X h')
  end.

(** The states that own a subprocess hold a handle to it. *)
Definition has_process (s : State) : Prop :=
  match s with
  | WaitingForGadgetState p | ActiveState p | WaitingForProcessEndState p =>
      p <> None
  | _ => True
  end.

Definition is_msg (k : MESSAGE_TYPE) (e : MESSAGE_TYPE * string) : bool :=
  match k, fst e with
  | RESOURCE_CREATED, RESOURCE_CREATED => true
  | RESOURCE_DELETED, RESOURCE_DELETED => true
  | _, _ => false
  end.

(** How many Redfish events of kind [k] the world has seen. *)
Definition sent (k : MESSAGE_TYPE) (w : World) : nat :=
  List.length (filter (is_msg k) (redfish (trace w))).

(** Deletions never outnumber creations, and an Active slot has one
    creation not yet answered by a deletion. *)
Definition balanced (w : World) : Prop :=
  sent RESOURCE_DELETED w <= sent RESOURCE_CREATED w /\
  (is_Active (state (machine w)) = true ->
   sent RESOURCE_DELETED w < sent RESOURCE_CREATED w).

(* ------------------------------------------------------------------ *)
(** ** Vocabulary for the credential pipe *)

(** The bytes a client writes for a user name and a password: each
    followed by one NUL. *)
Definition pipe_bytes (usr pass : string) : list ascii :=
  list_ascii_of_string usr ++ zero :: list_ascii_of_string pass ++ [zero].

(** The string holds no NUL character. *)
Definition nul_free (s : string) : Prop := ~ In zero (list_ascii_of_string s).

(** The first [k] polls of the Unmount method find the slot not yet in
    Ready. *)
Fixpoint unmount_pending (X : Externals) (k : nat) (sched : Schedule) (w : World)
    : bool :=
  match k with
  | O => true
  | S k' =>
      negb (is_Ready (state (machine w))) &&
      unmount_pending X k' (tl sched) (snd (timer_wait X (hd [] sched) w))
  end.

(* ------------------------------------------------------------------ *)
(** ** Vocabulary for activation and for whole calls *)

(** The world with the machine put in state [s] with exit code [c], and the
    outward calls [new] (newest first) added to the trace. *)
Definition moved (w : World) (s : State) (c : Z) (new : list Action) : World :=
  mkWorld (mkMachine (name (machine w)) (config (machine w))
                     (target (machine w)) s c)
          (dirs w) (mounts w) (new ++ trace w) (clock_ms w) (raw_buf w).

(** The same, with the target replaced. *)
Definition retargeted (w : World) (t : option Target) : World :=
  mkWorld (mkMachine (name (machine w)) (config (machine w)) t
                     (state (machine w)) (exitCode (machine w)))
          (dirs w) (mounts w) (trace w) (clock_ms w) (raw_buf w).

(** The world after [ms] milliseconds of waiting. *)
Definition later (w : World) (ms : nat) : World :=
  mkWorld (machine w) (dirs w) (mounts w) (trace w) (clock_ms w + ms) (raw_buf w).

(** The NBD client of a proxy slot and the NBD server of a legacy slot. *)
Definition nbd_client_of (m : MountPointStateMachine) : Process :=
  mkProcess "/usr/sbin/nbd-client" (nbdDevice (config m)).

Definition nbdkit_of (m : MountPointStateMachine) : Process :=
  mkProcess "/usr/sbin/nbdkit" (nbdDevice (config m)).

(** The arguments given to the NBD server for an HTTPS URL without
    credentials. *)
Definition nbdkit_url_args (X : Externals) (m : MountPointStateMachine)
    (url : string) (rwf : bool) : list string :=
  ["--unix"; unixSocket (config m); "--run";
   ("/usr/sbin/nbd-client " ++ String.concat " " (toArgs X (config m)))%string] ++
  (if rwf then [] else ["--readonly"]) ++
  ["curl"; "sslverify=false"; ("url=" ++ url)%string].

(** *** Vocabulary for the application *)

(** A slot after a device notification: always the same slot, and the very
    same machine when the notification is for another device. *)
Definition slot_after_notification (dev : NBDDevice)
    (m m' : MountPointStateMachine) : Prop :=
  name m' = name m /\ config m' = config m /\
  (nbdDevice (config m) <> dev -> m' = m).

(** A freshly registered machine for the mount point [mp]. *)
Definition registered_for (mp : string * MountPoint) (m : MountPointStateMachine)
    : Prop :=
  m = mkMachine (fst mp) (snd mp) None (ReadyState None) (-1).

(** Two mount points, on different devices. *)
Definition two_slots : list (string * MountPoint) :=
  [("Slot_0", mkMountPoint proxy "/dev/nbd0" "/run/virtual-media/nbd0.sock" "/nbd/0");
   ("Slot_1", mkMountPoint legacy "/dev/nbd1" "/run/virtual-media/nbd1.sock" "/nbd/1")].

Definition nothing_yet : Shared := mkShared [] [] [] 0 None.
(* ------------------------------------------------------------------ *)
(** * Properties *)

#[local] Arguments isCifsUrl : simpl never.
#[local] Arguments isHttpsUrl : simpl never.
#[local] Arguments getImagePath : simpl never.
#[local] Arguments String.append : simpl never.
#[local] Arguments String.concat : simpl never.
#[local] Arguments String.length : simpl never.
#[local] Arguments substring : simpl never.
#[local] Arguments String.eqb : simpl never.
#[local] Arguments Z.eqb : simpl never.
#[local] Arguments Nat.leb : simpl never.
#[local] Arguments path_remove : simpl never.
#[local] Arguments app : simpl never.

(** Symbolic execution of the monadic code: expose the fields of the world
    and of the environment, unfold the handlers, and split on every test
    the code makes. *)
Ltac expose_world w :=
  destruct w as [[w_name w_config w_target w_state w_exitCode]
                 w_dirs w_mounts w_trace w_clock w_buf].

Ltac expose_env env :=
  destruct env as [e_dir e_mount e_socket e_unlink e_spawn e_secret e_gadget e_lock].

Ltac unfold_machine :=
  cbv beta iota zeta delta
    [bind ret throw undefined try_catch get_machine set_machine set_state
     set_target set_exitCode deref_target act set_dirs set_mounts set_raw_buf
     tick machine dirs mounts trace clock_ms raw_buf
     name config target state exitCode
     createMountDir_ret smb_mount_ret socket_exists socket_remove_ret
     spawn_ret secret_path gadget_ret lock_ret
     imgUrl rw mountDir credentials fst snd
     SmbShare_createMountDir SmbShare_mount SmbShare_unmount fs_remove_all
     fs_remove
     sendEvent removeUsbGadget stopProcess BasicEvent_call
     addMountPointInterface addProcessInterface addServiceInterface
     RegisterDbusEvent_Initial MountEvent_Ready UnmountEvent_Activating
     UnmountEvent_WaitingForGadget UnmountEvent_Active
     UnmountEvent_WaitingForProcessEnd UnmountEvent_Ready
     SubprocessStoppedEvent_Activating SubprocessStoppedEvent_WaitingForGadget
     SubprocessStoppedEvent_Active SubprocessStoppedEvent_WaitingForProcessEnd
     make_shared_Process Process_spawn activateProxyMode spawnNbdKit
     spawnNbdKit_file spawnNbdKit_url mountSmbShare mountHttpsShare
     activateLegacyMode ActivationStartedEvent_Activating
     unexpected_udev_message UdevStateChangeEvent_WaitingForGadget
     UdevStateChangeEvent_Ready visit ReadyState_onEnter
     ActivatingState_onEnter onEnter emitEvent_fuel emitEvent emitMountEvent
     emitUnmountEvent emitSubprocessStoppedEvent emitRegisterDBusEvent
     emitUdevStateChangeEvent StateChange_eqb negb
     is_Ready is_Active is_WaitingForGadget active_lifecycle ready_error].

Ltac no_test_inside x :=
  lazymatch x with
  | context [match _ with _ => _ end] => fail
  | _ => idtac
  end.

Ltac split_test :=
  match goal with
  | |- context [match ?x with _ => _ end] => is_var x; destruct x
  | |- context [match ?x with _ => _ end] => no_test_inside x; destruct x eqn:?
  end.

Ltac exec := unfold_machine; repeat (split_test; unfold_machine).

Lemma target_kept_refl t : target_kept t t.
Proof. destruct t as [[? ? ? ?]|]; cbn; eauto. Qed.

Ltac new_of l t :=
  lazymatch l with
  | t => constr:(@nil Action)
  | ?a :: ?l' => let r := new_of l' t in constr:(a :: r)
  end.

Ltac close_trace :=
  lazymatch goal with
  | |- exists new, ?l = new ++ ?t /\ _ =>
      let n := new_of l t in exists n; split; reflexivity
  end.

Ltac close_visit :=
  unfold visit_post, frame; cbn;
  repeat match goal with |- _ /\ _ => split end;
  first [ reflexivity
        | apply target_kept_refl
        | close_trace
        | solve [cbn; eauto]
        | solve [unfold handler_result, transition, ReadyError; cbn; eauto 6] ].

Section Facts.

Variable X : Externals.

Lemma visit_spec env ev s w :
  match visit X env ev s w with
  | (r, w1) => visit_post ev s w r w1
  end.
Proof.
  expose_world w. expose_env env.
  destruct ev as [| | | | |[|]]; destruct s; exec; close_visit.
Qed.

Lemma extends_refl w : extends w w [].
Proof. unfold extends, frame. repeat split. now exists []. Qed.

Lemma redfish_app l1 l2 : redfish (l1 ++ l2) = redfish l1 ++ redfish l2.
Proof. unfold redfish. apply flat_map_app. Qed.

Lemma extends_trans w w1 w2 e1 e2 :
  extends w w1 e1 -> extends w1 w2 e2 -> extends w w2 (e2 ++ e1).
Proof.
  intros [[A [B [C D]]] [n1 [T1 R1]]] [[A' [B' [C' D']]] [n2 [T2 R2]]].
  unfold extends, frame. repeat split; try congruence.
  exists (n2 ++ n1). rewrite T2, T1, redfish_app, R1, R2.
  split; [apply app_assoc | reflexivity].
Qed.

Lemma set_state_run s w : set_state s w = (Val tt, with_state s w).
Proof. reflexivity. Qed.

Lemma set_exitCode_run c w : set_exitCode c w = (Val tt, with_exitCode c w).
Proof. reflexivity. Qed.

Lemma with_state_extends s w : extends w (with_state s w) [].
Proof. unfold extends, frame. repeat split. now exists []. Qed.

Lemma with_exitCode_extends c w : extends w (with_exitCode c w) [].
Proof. unfold extends, frame. repeat split. now exists []. Qed.

Lemma ReadyState_onEnter_spec w :
  exists w', ReadyState_onEnter X w = (Val tt, w') /\
             extends w w' [] /\
             state (machine w') = state (machine w) /\
             exitCode (machine w') = exitCode (machine w) /\
             target (machine w') = None.
Proof.
  expose_world w. unfold extends, frame. exec; eexists;
    (split; [reflexivity|]); cbn; repeat split; try reflexivity;
    try close_trace.
Qed.

Lemma handler_events_nil m ev s s' :
  is_Active s' = false -> (forall p, s' <> WaitingForProcessEndState p) ->
  handler_events m ev s (Val s') = [].
Proof.
  intros A B. destruct ev, s, s'; try reflexivity; try discriminate;
    now elim (B process0).
Qed.

Lemma handler_events_same m ev s : handler_events m ev s (Val s) = [].
Proof. destruct ev, s; reflexivity. Qed.

Lemma handler_events_activation m r :
  handler_events m ActivationStartedEvent ActivatingState r = [].
Proof. destruct r as [[]| | |]; reflexivity. Qed.

Lemma handler_events_unsuccessful m ev s r :
  (forall s', r <> Val s') -> handler_events m ev s r = [].
Proof.
  intros H. destruct r as [s'| | |]; destruct ev, s; try reflexivity;
    now elim (H s').
Qed.

Lemma target_kept_None t t1 : target_kept t t1 -> t = None -> t1 = None.
Proof. intros H ->. exact H. Qed.

Lemma target_kept_trans t t1 t2 :
  target_kept t t1 -> target_kept t1 t2 -> target_kept t t2.
Proof.
  destruct t as [a|]; cbn.
  - intros [md ->]. cbn. auto.
  - intros ->. auto.
Qed.

Lemma throws_in_place env s w e w1 :
  visit X env UnmountEvent s w = (Throw e, w1) -> w1 = w.
Proof.
  pose proof (visit_spec env UnmountEvent s w) as V. intros E. rewrite E in V.
  destruct V as (_ & _ & _ & _ & _ & [(_ & [R | [p ->]] & _) | (D & _)]).
  - destruct s; try discriminate. cbn in E. now inversion E.
  - cbn in E. now inversion E.
  - discriminate D.
Qed.

Lemma emitEvent_fuel_S k env ev :
  emitEvent_fuel X (S k) env ev =
  (m <- get_machine ;;
   s' <- visit X env ev (state m) ;;
   set_state s' ;;
   onEnter X (emitEvent_fuel X k env ActivationStartedEvent) s').
Proof. reflexivity. Qed.

Lemma visit_extends env ev s w r w1 :
  visit X env ev s w = (r, w1) ->
  extends w w1 (handler_events (machine w) ev s r).
Proof.
  intros E. pose proof (visit_spec env ev s w) as V. rewrite E in V.
  destruct V as (F & _ & _ & _ & T & _). now split.
Qed.

(** The state a handler returns is entered without further events, unless
    it is [ActivatingState]. *)
Lemma enter_plain env ev w s1 w1 (h : M unit) :
  visit X env ev (state (machine w)) w = (Val s1, w1) ->
  is_Ready s1 = false -> s1 <> ActivatingState ->
  onEnter X h s1 (with_state s1 w1) = (Val tt, with_state s1 w1) /\
  emit_post ev w (Val tt) (with_state s1 w1).
Proof.
  intros E R A. pose proof (visit_spec env ev (state (machine w)) w) as V.
  rewrite E in V. destruct V as (F & St & Ex & TK & T & HR).
  split; [destruct s1; try reflexivity; try discriminate; now elim A|].
  unfold emit_post.
  change (state (machine (with_state s1 w1))) with s1.
  change (target (machine (with_state s1 w1))) with (target (machine w1)).
  split; [|split; [|split]].
  - exact (extends_trans _ _ _ _ _ (visit_extends _ _ _ _ _ _ E)
                         (with_state_extends s1 w1)).
  - intros N. now apply (target_kept_None _ _ TK).
  - exists s1. split; [exact HR|]. destruct s1; try reflexivity. now elim A.
  - rewrite R. exact TK.
Qed.

Lemma enter_Ready env ev w e w1 (h : M unit) :
  visit X env ev (state (machine w)) w = (Val (ReadyState e), w1) ->
  match onEnter X h (ReadyState e) (with_state (ReadyState e) w1) with
  | (r, w') => r = Val tt /\ emit_post ev w r w'
  end.
Proof.
  intros E. pose proof (visit_spec env ev (state (machine w)) w) as V.
  rewrite E in V. destruct V as (F & St & Ex & TK & T & HR).
  cbn [onEnter].
  destruct (ReadyState_onEnter_spec (with_state (ReadyState e) w1))
    as (w' & -> & EX & S' & _ & TN).
  split; [reflexivity|]. unfold emit_post.
  change (state (machine (with_state (ReadyState e) w1))) with (ReadyState e) in S'.
  rewrite S'.
  split; [|split; [|split]].
  - exact (extends_trans _ _ _ _ _
             (extends_trans _ _ _ _ _ (visit_extends _ _ _ _ _ _ E)
                            (with_state_extends (ReadyState e) w1)) EX).
  - intros _. exact TN.
  - exists (ReadyState e). split; [exact HR | reflexivity].
  - exact TN.
Qed.

Lemma extends_quiet w w1 w2 :
  extends w w1 [] -> extends w1 w2 [] -> extends w w2 [].
Proof. intros A B. exact (extends_trans _ _ _ _ _ A B). Qed.

Lemma enter_Activating env ev w w1 :
  visit X env ev (state (machine w)) w = (Val ActivatingState, w1) ->
  match onEnter X (emitEvent_fuel X 1 env ActivationStartedEvent)
                ActivatingState (with_state ActivatingState w1) with
  | (r, w') => emit_post ev w r w'
  end.
Proof.
  intros E. pose proof (visit_spec env ev (state (machine w)) w) as V.
  rewrite E in V. destruct V as (F & St & Ex & TK & T & HR).
  pose proof (visit_extends _ _ _ _ _ _ E) as X1.
  rewrite handler_events_nil in X1 by (reflexivity || discriminate).
  set (w2 := with_state ActivatingState w1).
  set (w3 := with_exitCode (-1) w2).
  assert (X3 : extends w w3 []).
  { apply (extends_quiet _ w1 _ X1).
    apply (extends_quiet _ w2 _ (with_state_extends _ _)).
    apply with_exitCode_extends. }
  assert (TK3 : target_kept (target (machine w)) (target (machine w3))) by exact TK.
  cbn [onEnter]. unfold ActivatingState_onEnter, bind at 1.
  rewrite set_exitCode_run. fold w3.
  rewrite emitEvent_fuel_S. unfold bind, get_machine.
  change (state (machine w3)) with ActivatingState.
  pose proof (visit_spec env ActivationStartedEvent ActivatingState w3) as V2.
  destruct (visit X env ActivationStartedEvent ActivatingState w3)
    as [[s2|e|u|] w4] eqn:E2.
  - destruct V2 as (F2 & St2 & Ex2 & TK2 & T2 & HR2).
    pose proof (visit_extends _ _ _ _ _ _ E2) as X4.
    rewrite handler_events_activation in X4.
    pose proof (extends_quiet _ _ _ X3 X4) as X5.
    pose proof (target_kept_trans _ _ _ TK3 TK2) as TK4.
    rewrite set_state_run.
    destruct HR2 as [[p ->] | [err ->]].
    + cbn [onEnter ret]. unfold emit_post.
      change (state (machine (with_state (WaitingForGadgetState (Some p)) w4)))
        with (WaitingForGadgetState (Some p)).
      rewrite handler_events_nil by (reflexivity || discriminate).
      split; [|split; [|split]].
      * exact (extends_quiet _ _ _ X5 (with_state_extends _ _)).
      * intros N. exact (target_kept_None _ _ TK4 N).
      * exists ActivatingState. split; [exact HR|]. left. now exists p.
      * exact TK4.
    + cbn [onEnter].
      destruct (ReadyState_onEnter_spec (with_state (ReadyState (Some err)) w4))
        as (w' & -> & EX & S' & _ & TN).
      unfold emit_post.
      change (state (machine (with_state (ReadyState (Some err)) w4)))
        with (ReadyState (Some err)) in S'.
      rewrite S', handler_events_nil by (reflexivity || discriminate).
      split; [|split; [|split]].
      * exact (extends_quiet _ _ _
                 (extends_quiet _ _ _ X5 (with_state_extends _ _)) EX).
      * intros _. exact TN.
      * exists ActivatingState. split; [exact HR|]. right. now exists err.
      * exact TN.
  - destruct V2 as (F2 & St2 & Ex2 & TK2 & T2 & HR2).
    destruct HR2 as [(D & _) | (_ & _ & what & ->)]; [discriminate D|].
    pose proof (visit_extends _ _ _ _ _ _ E2) as X4.
    rewrite handler_events_activation in X4.
    pose proof (target_kept_trans _ _ _ TK3 TK2) as TK4.
    unfold emit_post. rewrite St2.
    change (state (machine w3)) with ActivatingState.
    rewrite handler_events_nil by (reflexivity || discriminate).
    split; [|split; [|right; split; [now exists what | now split]]].
    + exact (extends_quiet _ _ _ X3 X4).
    + intros N. exact (target_kept_None _ _ TK4 N).
  - destruct V2 as (F2 & St2 & Ex2 & TK2 & T2 & HR2).
    pose proof (visit_extends _ _ _ _ _ _ E2) as X4.
    rewrite handler_events_activation in X4.
    unfold emit_post. rewrite St2.
    change (state (machine w3)) with ActivatingState.
    rewrite handler_events_nil by (reflexivity || discriminate).
    split; [|split; [|now right]].
    + exact (extends_quiet _ _ _ X3 X4).
    + intros N. exact (target_kept_None _ _ (target_kept_trans _ _ _ TK3 TK2) N).
  - destruct V2 as (_ & _ & _ & _ & _ & []).
Qed.

(** The specification of [emitEvent]. *)
Lemma emitEvent_spec env ev w :
  match emitEvent X env ev w with
  | (r, w') => emit_post ev w r w'
  end.
Proof.
  unfold emitEvent. rewrite emitEvent_fuel_S. unfold bind, get_machine.
  pose proof (visit_spec env ev (state (machine w)) w) as V.
  destruct (visit X env ev (state (machine w)) w) as [[s1|e|u|] w1] eqn:E.
  - rewrite set_state_run.
    destruct s1 as [|err| |p|p|p].
    + destruct (enter_plain env ev w _ w1
                  (emitEvent_fuel X 1 env ActivationStartedEvent) E)
        as [-> P]; [reflexivity | discriminate | exact P].
    + pose proof (enter_Ready env ev w err w1
                    (emitEvent_fuel X 1 env ActivationStartedEvent) E) as P.
      destruct (onEnter X _ _ _) as [r w']. now destruct P as [-> P].
    + exact (enter_Activating env ev w w1 E).
    + destruct (enter_plain env ev w _ w1
                  (emitEvent_fuel X 1 env ActivationStartedEvent) E)
        as [-> P]; [reflexivity | discriminate | exact P].
    + destruct (enter_plain env ev w _ w1
                  (emitEvent_fuel X 1 env ActivationStartedEvent) E)
        as [-> P]; [reflexivity | discriminate | exact P].
    + destruct (enter_plain env ev w _ w1
                  (emitEvent_fuel X 1 env ActivationStartedEvent) E)
        as [-> P]; [reflexivity | discriminate | exact P].
  - destruct V as (F & St & Ex & TK & T & HR).
    destruct HR as [(U & RW & ->) | (_ & S0 & what & ->)].
    + subst ev. pose proof (throws_in_place _ _ _ _ _ E) as ->.
      unfold emit_post. rewrite handler_events_same.
      split; [apply extends_refl | split; [tauto | left; now repeat split]].
    + pose proof (visit_extends _ _ _ _ _ _ E) as X1.
      rewrite handler_events_unsuccessful in X1 by discriminate.
      unfold emit_post. rewrite St, handler_events_same.
      split; [exact X1 | split].
      * intros N. exact (target_kept_None _ _ TK N).
      * right. split; [now exists what | now split].
  - destruct V as (F & St & Ex & TK & T & HR).
    pose proof (visit_extends _ _ _ _ _ _ E) as X1.
    rewrite handler_events_unsuccessful in X1 by discriminate.
    unfold emit_post. rewrite St, handler_events_same.
    split; [exact X1 | split; [|now left]].
    intros N. exact (target_kept_None _ _ TK N).
  - destruct V as (_ & _ & _ & _ & _ & []).
Qed.

(** [emitEvent] never stops for lack of fuel, and more fuel changes
    nothing. *)
Lemma emitEvent_has_fuel env ev w : fst (emitEvent X env ev w) <> NoFuel.
Proof.
  pose proof (emitEvent_spec env ev w) as P.
  destruct (emitEvent X env ev w) as [[[]| | |] w']; cbn; try discriminate.
  now destruct P as (_ & _ & []).
Qed.

Lemma ActivationStarted_leaves_Activating env s w s' w' :
  visit X env ActivationStartedEvent s w = (Val s', w') ->
  s' <> ActivatingState.
Proof.
  intros E. pose proof (visit_spec env ActivationStartedEvent s w) as V.
  rewrite E in V. destruct V as (_ & _ & _ & _ & _ & HR).
  destruct s; cbn in HR; try (subst s'; discriminate).
  destruct HR as [[p ->] | [e ->]]; discriminate.
Qed.

Lemma onEnter_hook_unused (h1 h2 : M unit) s :
  s <> ActivatingState -> onEnter X h1 s = onEnter X h2 s.
Proof. destruct s; intros H; try reflexivity. now elim H. Qed.

Lemma emitActivationStarted_fuel n env w :
  emitEvent_fuel X (S n) env ActivationStartedEvent w =
  emitEvent_fuel X 1 env ActivationStartedEvent w.
Proof.
  rewrite !emitEvent_fuel_S. unfold bind, get_machine.
  destruct (visit X env ActivationStartedEvent (state (machine w)) w)
    as [[s'| | |] w1] eqn:E; try reflexivity.
  apply ActivationStarted_leaves_Activating in E.
  destruct (set_state s' w1) as [[[]| | |] w2]; try reflexivity.
  now rewrite (onEnter_hook_unused (emitEvent_fuel X n env ActivationStartedEvent)
                 (emitEvent_fuel X 0 env ActivationStartedEvent) s' E).
Qed.

Lemma emitEvent_fuel_enough n env ev w :
  emitEvent_fuel X (S (S n)) env ev w = emitEvent X env ev w.
Proof.
  unfold emitEvent. rewrite !emitEvent_fuel_S. unfold bind, get_machine.
  destruct (visit X env ev (state (machine w)) w) as [[s'| | |] w1]; try reflexivity.
  destruct (set_state s' w1) as [[[]| | |] w2]; try reflexivity.
  destruct s'; try reflexivity.
  unfold onEnter, ActivatingState_onEnter, bind.
  destruct (set_exitCode (-1) w2) as [[[]| | |] w3]; try reflexivity.
  apply emitActivationStarted_fuel.
Qed.

End Facts.

(* ------------------------------------------------------------------ *)
(** ** Premature exit of the subprocess *)

(** C7.  Applying SubprocessStopped while the slot is in WaitingForGadget
    takes the slot to Ready carrying the error
    (io_error, "Process ended prematurely"); the event always completes. *)
Theorem C7_premature_exit (X : Externals) (env : Env) (w : World)
    (p : weak_ptr_Process) :
  state (machine w) = WaitingForGadgetState p ->
  exists w',
    emitEvent X env SubprocessStoppedEvent w = (Val tt, w') /\
    state (machine w') =
      ReadyState (Some (mkError io_error "Process ended prematurely")).
Proof.
  expose_world w. expose_env env. cbn [machine state]. intros ->.
  exec; eexists; split; reflexivity.
Qed.

Lemma C7_premature_exit_witness :
  state (machine Run.proxy_waiting) = WaitingForGadgetState (Some Run.nbd_client) /\
  exists w',
    emitEvent Run.X0 Demo.fine SubprocessStoppedEvent Run.proxy_waiting = (Val tt, w') /\
    state (machine w') =
      ReadyState (Some (mkError io_error "Process ended prematurely")).
Proof.
  split; [reflexivity|].
  apply (C7_premature_exit Run.X0 Demo.fine Run.proxy_waiting (Some Run.nbd_client)).
  reflexivity.
Defined.

(* ------------------------------------------------------------------ *)
(** ** Device notifications *)

(** C8, as stated, fails: a [removed] notification received while waiting
    for the gadget does change the state, to Ready with the error
    operation_not_supported. *)
Lemma C8_removed_while_waiting_changes_state :
  let w := Run.proxy_waiting in
  let r := emitEvent Run.X0 Demo.fine (UdevStateChangeEvent removed) w in
  state (machine w) = WaitingForGadgetState (Some Run.nbd_client) /\
  fst r = Val tt /\
  state (machine (snd r)) <> state (machine w) /\
  option_map code (ready_error (state (machine (snd r)))) =
    Some operation_not_supported.
Proof. repeat split. discriminate. Qed.

(** C8, amended.  A UdevStateChange event applied in Initial, Ready, Active
    or WaitingForProcessEnd, in either direction, completes and leaves the
    state as it is.  In WaitingForGadget it always changes the state:
    inserted leads to Active when the gadget is configured and to Ready
    with device_or_resource_busy otherwise; removed leads to Ready with
    operation_not_supported.  In Activating the handler itself returns the
    state unchanged. *)
Theorem C8_udev_state_change (X : Externals) (env : Env) (d : StateChange)
    (w : World) :
  match state (machine w) with
  | WaitingForGadgetState p =>
      match d with
      | inserted =>
          exists w',
            emitEvent X env (UdevStateChangeEvent d) w = (Val tt, w') /\
            state (machine w') =
              if Z.eqb (gadget_ret env) 0 then ActiveState p
              else ReadyState (Some (mkError device_or_resource_busy
                                             "Unable to configure gadget"))
      | removed =>
          StateChange_int X removed <= 23 ->
          exists w' msg,
            emitEvent X env (UdevStateChangeEvent d) w = (Val tt, w') /\
            state (machine w') =
              ReadyState (Some (mkError operation_not_supported msg))
      end
  | ActivatingState =>
      visit X env (UdevStateChangeEvent d) ActivatingState w =
        (Val ActivatingState, w)
  | s =>
      exists w',
        emitEvent X env (UdevStateChangeEvent d) w = (Val tt, w') /\
        state (machine w') = s
  end.
Proof.
  expose_world w. expose_env env. cbn [machine state].
  destruct w_state; destruct d; try reflexivity; exec; intros;
    first
      [ eexists; split; reflexivity
      | do 2 eexists; split; reflexivity
      | exfalso;
        match goal with
        | H : Nat.leb _ _ = false |- _ =>
            apply Nat.leb_gt in H;
            change (String.length "Unexpected udev event: ") with 23 in H; lia
        end ].
Qed.

Lemma C8_udev_state_change_witness :
  StateChange_int Run.X0 removed <= 23 /\
  exists w' msg,
    emitEvent Run.X0 Demo.fine (UdevStateChangeEvent removed) Run.proxy_waiting
      = (Val tt, w') /\
    state (machine w') = ReadyState (Some (mkError operation_not_supported msg)).
Proof.
  assert (H : StateChange_int Run.X0 removed <= 23) by (cbn; lia).
  split; [exact H|].
  exact (C8_udev_state_change Run.X0 Demo.fine removed Run.proxy_waiting H).
Defined.

(* ------------------------------------------------------------------ *)
(** ** Redfish events *)

Lemma emitted_extends w w' evs : extends w w' evs -> emitted w w' = evs.
Proof.
  intros [_ (new & T & R)]. unfold emitted. rewrite T, length_app.
  replace (List.length new + List.length (trace w) - List.length (trace w))
    with (List.length new + 0) by lia.
  now rewrite firstn_app_2, firstn_O, app_nil_r.
Qed.

Lemma Unmount_in_Active_completes (X : Externals) env w p :
  state (machine w) = ActiveState p ->
  exists w', emitEvent X env UnmountEvent w = (Val tt, w').
Proof.
  expose_world w. expose_env env. cbn [machine state]. intros ->.
  exec; eexists; reflexivity.
Qed.

Lemma step_into_Active ev s s' :
  step ev s s' -> is_Active s = false -> is_Active s' = true ->
  exists p, ev = UdevStateChangeEvent inserted /\
            s = WaitingForGadgetState p /\ s' = ActiveState p.
Proof.
  intros (s1 & T & S1) A A'.
  destruct s1; cbn in S1; try (subst s'; discriminate A').
  - destruct S1 as [[p ->]|[e ->]]; discriminate A'.
  - subst s'.
    destruct ev as [| | | | |[|]], s; cbn in T, A; try discriminate;
      repeat match goal with
             | H : _ \/ _ |- _ => destruct H
             | H : exists _, _ |- _ => destruct H
             | H : False |- _ => destruct H
             end; try discriminate.
    match goal with
    | H : ActiveState _ = ActiveState _ |- _ => inversion H; subst
    end.
    eexists; repeat split.
Qed.

(** C9.  One applied event sends at most one Redfish event, against the
    object path of the slot.  RESOURCE_CREATED is sent exactly when the
    event takes the slot into Active; RESOURCE_DELETED exactly when the
    event is an Unmount applied in Active that does not end in Ready with
    an error; no Redfish event is sent when the slot ends in Ready with an
    error. *)
Theorem C9_redfish_events (X : Externals) (env : Env) (ev : Event) (w : World) :
  let w' := snd (emitEvent X env ev w) in
  let s := state (machine w) in
  let s' := state (machine w') in
  let here := objectPath (machine w) in
  (emitted w w' = [(RESOURCE_CREATED, here)] <->
     is_Active s = false /\ is_Active s' = true) /\
  (emitted w w' = [(RESOURCE_DELETED, here)] <->
     ev = UnmountEvent /\ is_Active s = true /\ ready_error s' = None) /\
  (emitted w w' = [] \/
   emitted w w' = [(RESOURCE_CREATED, here)] \/
   emitted w w' = [(RESOURCE_DELETED, here)]) /\
  (ready_error s' <> None -> emitted w w' = []).
Proof.
  pose proof (emitEvent_spec X env ev w) as P.
  destruct (emitEvent X env ev w) as [r w'] eqn:E. cbn [snd]. cbv zeta.
  destruct P as (EX & _ & P).
  rewrite (emitted_extends _ _ _ EX).
  set (s := state (machine w)) in *. set (s' := state (machine w')) in *.
  split; [|split; [|split]].
  - split.
    + destruct ev, s, s'; cbn; intros H; try discriminate H; now split.
    + intros [A A'].
      destruct r as [[]|e|u|].
      * destruct P as [ST _].
        destruct (step_into_Active _ _ _ ST A A') as (p & -> & -> & ->).
        reflexivity.
      * destruct P as [(_ & _ & _ & ->) | (_ & S' & _)].
        -- subst s s'. congruence.
        -- rewrite S' in A'. discriminate A'.
      * destruct P as [P|P]; rewrite P in A'; [congruence | discriminate].
      * destruct P.
  - split.
    + destruct ev, s, s'; cbn; intros H; try discriminate H; now repeat split.
    + intros (-> & A & R).
      destruct s as [| | | |p|] eqn:S; try discriminate.
      destruct (Unmount_in_Active_completes X env w p S) as [w2 E2].
      rewrite E2 in E. inversion E; subst r w2.
      destruct P as [(s1 & T & S1) _]. cbn in T.
      destruct T as [-> | ->]; cbn in S1; rewrite S1 in *.
      * reflexivity.
      * discriminate.
  - destruct ev, s, s'; cbn; auto.
  - intros R. apply handler_events_nil.
    + destruct s'; try reflexivity; now elim R.
    + intros p ->. now elim R.
Qed.

Lemma C9_redfish_events_witness :
  let w := Run.proxy_waiting in
  let ev := UdevStateChangeEvent inserted in
  let w' := snd (emitEvent Run.X0 Demo.fine ev w) in
  let s := state (machine w) in
  let s' := state (machine w') in
  let here := objectPath (machine w) in
  (emitted w w' = [(RESOURCE_CREATED, here)] <->
     is_Active s = false /\ is_Active s' = true) /\
  (emitted w w' = [(RESOURCE_DELETED, here)] <->
     ev = UnmountEvent /\ is_Active s = true /\ ready_error s' = None) /\
  (emitted w w' = [] \/
   emitted w w' = [(RESOURCE_CREATED, here)] \/
   emitted w w' = [(RESOURCE_DELETED, here)]) /\
  (ready_error s' <> None -> emitted w w' = []).
Proof.
  exact (C9_redfish_events Run.X0 Demo.fine (UdevStateChangeEvent inserted)
           Run.proxy_waiting).
Defined.

(** The events of the worked example: one RESOURCE_CREATED on the way up,
    one RESOURCE_DELETED on the user's Unmount. *)
Example redfish_events_of_a_cycle :
  let up := snd (emitEvent Run.X0 Demo.fine (UdevStateChangeEvent inserted)
                           Run.proxy_waiting) in
  let down := snd (emitEvent Run.X0 Demo.fine UnmountEvent up) in
  emitted Run.proxy_waiting up =
    [(RESOURCE_CREATED, "/xyz/openbmc_project/VirtualMedia/Proxy/Slot_0")] /\
  emitted up down =
    [(RESOURCE_DELETED, "/xyz/openbmc_project/VirtualMedia/Proxy/Slot_0")] /\
  emitted up (snd (emitEvent Run.X0 Run.gadget_fails UnmountEvent up)) = [].
Proof. vm_compute. repeat split. Qed.

(* ------------------------------------------------------------------ *)
(** ** The mount target *)

(** C1, as stated, fails in both directions.  A proxy slot waits for its
    gadget without any target; and the legacy Mount method, given a pipe
    with a single NUL, raises its error with the target stored and the
    slot still in Ready. *)
Lemma C1_target_invariant_broken :
  let waiting := snd (emitMountEvent Run.X0 Demo.fine (Run.registered proxy)) in
  let call :=
    Mount_legacy Run.X0 "smb://host/share/sub/file.iso" false
      (fd_unix (mkPipeRead Run.alice_nul [])) Run.stale Demo.fine []
      (Run.registered legacy) in
  (is_WaitingForGadget (state (machine waiting)) = true /\
   target (machine waiting) = None /\
   ~ target_iff_active waiting) /\
  (fst call = Throw (SdBusError EINVAL "Malformed extra data") /\
   state (machine (snd call)) = ReadyState None /\
   target (machine (snd call)) = Some Run.cifs_target /\
   ~ target_iff_active (snd call)).
Proof.
  vm_compute. repeat split; try reflexivity.
  - intros [_ H]. now apply H.
  - intros [H _]. discriminate H. discriminate.
Qed.

(** C1, amended.  After every applied event that completes, the target is
    unset whenever the slot is in Ready; an event never creates a target;
    and an event keeps the target it finds unless the slot ends in Ready.
    (The target is stored by the legacy Mount method before it emits the
    Mount event; a proxy slot never has one.) *)
Theorem C1_target_after_event (X : Externals) (env : Env) (ev : Event)
    (w w' : World) :
  emitEvent X env ev w = (Val tt, w') ->
  (is_Ready (state (machine w')) = true -> target (machine w') = None) /\
  (target (machine w) = None -> target (machine w') = None) /\
  (is_Ready (state (machine w')) = false ->
   target (machine w) <> None -> target (machine w') <> None).
Proof.
  intros E. pose proof (emitEvent_spec X env ev w) as P. rewrite E in P.
  destruct P as (_ & N & _ & T).
  split; [|split].
  - intros R. now rewrite R in T.
  - exact N.
  - intros R S. rewrite R in T.
    destruct (target (machine w)) as [t|]; [|now elim S].
    destruct T as [md ->]. discriminate.
Qed.

Lemma C1_target_after_event_witness :
  let w := Run.legacy_requested in
  let w' := snd (emitEvent Run.X0 Demo.fine MountEvent w) in
  emitEvent Run.X0 Demo.fine MountEvent w = (Val tt, w') /\
  (is_Ready (state (machine w')) = true -> target (machine w') = None) /\
  (target (machine w) = None -> target (machine w') = None) /\
  (is_Ready (state (machine w')) = false ->
   target (machine w) <> None -> target (machine w') <> None).
Proof.
  intros w w'.
  assert (E : emitEvent Run.X0 Demo.fine MountEvent w = (Val tt, w'))
    by (vm_compute; reflexivity).
  split; [exact E|].
  exact (C1_target_after_event Run.X0 Demo.fine MountEvent w w' E).
Defined.


(* ------------------------------------------------------------------ *)
(** ** Failure of the CIFS mount *)

Lemma path_in_remove_same d l : path_in d (path_remove d l) = false.
Proof.
  unfold path_in, path_remove. induction l as [|a l IH]; [reflexivity|].
  cbn [filter]. destruct (String.eqb d a) eqn:E; cbn [negb existsb]; [exact IH|].
  now rewrite E.
Qed.

Lemma path_in_remove_other d d2 l :
  path_in d l = false -> path_in d (path_remove d2 l) = false.
Proof.
  unfold path_in, path_remove. induction l as [|a l IH]; [reflexivity|].
  cbn [existsb]. intros H. apply orb_false_elim in H. destruct H as [A B].
  cbn [filter]. destruct (negb (String.eqb d2 a)); cbn [existsb]; auto.
  now rewrite A, IH.
Qed.

Create HintDb paths.

#[local] Hint Resolve path_in_remove_same path_in_remove_other : paths.




(* ------------------------------------------------------------------ *)
(** ** The polling loop of the Mount method *)

Section Polling.

Variable X : Externals.

Lemma run_activity_clock a w : clock_ms (snd (run_activity X a w)) = clock_ms w.
Proof.
  destruct a as [env|dev change env|c env]; cbn [run_activity].
  - unfold try_catch, emitUnmountEvent.
    pose proof (emitEvent_spec X env UnmountEvent w) as P.
    destruct (emitEvent X env UnmountEvent w) as [[[]|e|u|] w'];
      destruct P as [[(_ & _ & C & _) _] _]; exact C.
  - unfold emitUdevStateChangeEvent, bind, get_machine.
    destruct (String.eqb _ _); [|reflexivity].
    pose proof (emitEvent_spec X env (UdevStateChangeEvent change) w) as P.
    destruct (emitEvent X env (UdevStateChangeEvent change) w) as [[[]|e|u|] w'];
      destruct P as [[(_ & _ & C & _) _] _]; exact C.
  - unfold bind. rewrite set_exitCode_run. unfold emitSubprocessStoppedEvent.
    pose proof (emitEvent_spec X env SubprocessStoppedEvent (with_exitCode c w)) as P.
    destruct (emitEvent X env SubprocessStoppedEvent (with_exitCode c w))
      as [[[]|e|u|] w'];
      destruct P as [[(_ & _ & C & _) _] _]; exact C.
Qed.

Lemma run_activities_clock l w :
  clock_ms (snd (run_activities X l w)) = clock_ms w.
Proof.
  revert w. induction l as [|a l IH]; intros w; [reflexivity|].
  cbn [run_activities]. unfold bind.
  pose proof (run_activity_clock a w) as A.
  destruct (run_activity X a w) as [[[]|e|u|] w1]; cbn [snd] in A |- *;
    try exact A.
  now rewrite IH.
Qed.

Lemma timer_wait_clock l w :
  clock_ms (snd (timer_wait X l w)) = clock_ms w + 100.
Proof.
  unfold timer_wait, bind. cbn [tick].
  now rewrite run_activities_clock.
Qed.

Lemma run_waits_clock k : forall sched w wk,
  run_waits X k sched w = (Val tt, wk) -> clock_ms wk = clock_ms w + 100 * k.
Proof.
  induction k as [|k IH]; intros sched w wk E.
  - inversion E. lia.
  - cbn [run_waits] in E. unfold bind in E.
    pose proof (timer_wait_clock (hd [] sched) w) as C.
    destruct (timer_wait X (hd [] sched) w) as [[[]|e|u|] w1]; try discriminate.
    cbn [snd] in C. apply IH in E. lia.
Qed.

(** While the polls are pending the loop follows the waits. *)
Lemma handleMount_wait_pending k : forall n sched w wk,
  run_waits X k sched w = (Val tt, wk) ->
  polls_pending X k sched w = true ->
  handleMount_wait X (k + n) sched w = handleMount_wait X n (skipn k sched) wk.
Proof.
  induction k as [|k IH]; intros n sched w wk E P.
  - inversion E. reflexivity.
  - cbn [run_waits] in E. unfold bind in E.
    cbn [polls_pending] in P. apply andb_prop in P. destruct P as [T P].
    destruct (timer_wait X (hd [] sched) w) as [[[]|e|u|] w1] eqn:W;
      try discriminate.
    cbn [snd] in P.
    replace (skipn (S k) sched) with (skipn k (tl sched))
      by (destruct sched; [now destruct k | reflexivity]).
    rewrite <- (IH n (tl sched) w1 wk E P).
    cbn [Nat.add handleMount_wait]. unfold bind at 1. cbn [get_machine].
    unfold terminal in T.
    destruct (state (machine w)) as [|[err|]| | | |]; try discriminate T;
      unfold bind; now rewrite W.
Qed.

Lemma handleMount_wait_terminal n sched w :
  terminal (state (machine w)) = true ->
  handleMount_wait X (S n) sched w = (poll_outcome (state (machine w)), w).
Proof.
  intros T. cbn [handleMount_wait]. unfold bind. cbn [get_machine].
  destruct (state (machine w)) as [|[err|]| | | |]; try discriminate T; reflexivity.
Qed.

(** Once the slot is in Ready its target has been reset, and whatever runs
    during the waits keeps it so. *)
Lemma emitEvent_Ready_without_target env ev w :
  Ready_without_target w -> Ready_without_target (snd (emitEvent X env ev w)).
Proof.
  intros I. pose proof (emitEvent_spec X env ev w) as P.
  destruct (emitEvent X env ev w) as [[[]|e|u|] w']; cbn [snd];
    unfold Ready_without_target.
  - destruct P as (_ & _ & _ & TG). intros R. now rewrite R in TG.
  - destruct P as (_ & _ & [(_ & _ & _ & ->) | (_ & S' & _)]); [exact I|].
    rewrite S'. discriminate.
  - destruct P as (_ & N & [S' | S']); rewrite S'; [|discriminate].
    intros R. exact (N (I R)).
  - destruct P as (_ & _ & []).
Qed.

Lemma run_activity_Ready_without_target a w :
  Ready_without_target w -> Ready_without_target (snd (run_activity X a w)).
Proof.
  intros I. destruct a as [env|dev change env|c env]; cbn [run_activity].
  - unfold try_catch, emitUnmountEvent.
    pose proof (emitEvent_Ready_without_target env UnmountEvent w I) as P.
    destruct (emitEvent X env UnmountEvent w) as [[[]|e|u|] w']; exact P.
  - unfold emitUdevStateChangeEvent, bind, get_machine.
    destruct (String.eqb _ _); [|exact I].
    apply emitEvent_Ready_without_target; exact I.
  - unfold bind. rewrite set_exitCode_run. unfold emitSubprocessStoppedEvent.
    apply emitEvent_Ready_without_target. exact I.
Qed.

Lemma run_activities_Ready_without_target l w :
  Ready_without_target w -> Ready_without_target (snd (run_activities X l w)).
Proof.
  revert w. induction l as [|a l IH]; intros w I; [exact I|].
  cbn [run_activities]. unfold bind.
  pose proof (run_activity_Ready_without_target a w I) as A.
  destruct (run_activity X a w) as [[[]|e|u|] w1]; cbn [snd] in A |- *;
    try exact A.
  now apply IH.
Qed.

Lemma timer_wait_Ready_without_target l w :
  Ready_without_target w -> Ready_without_target (snd (timer_wait X l w)).
Proof.
  intros I. unfold timer_wait, bind. cbn [tick].
  apply run_activities_Ready_without_target. exact I.
Qed.

Lemma run_waits_Ready_without_target k : forall sched w wk,
  run_waits X k sched w = (Val tt, wk) ->
  Ready_without_target w -> Ready_without_target wk.
Proof.
  induction k as [|k IH]; intros sched w wk E I.
  - inversion E; subst. exact I.
  - cbn [run_waits] in E. unfold bind in E.
    pose proof (timer_wait_Ready_without_target (hd [] sched) w I) as C.
    destruct (timer_wait X (hd [] sched) w) as [[[]|e|u|] w1]; try discriminate.
    exact (IH _ _ _ E C).
Qed.

End Polling.

Lemma handleMount_wait_stops (X : Externals) k sched w wk :
  k < 120 ->
  run_waits X k sched w = (Val tt, wk) ->
  polls_pending X k sched w = true ->
  terminal (state (machine wk)) = true ->
  handleMount_wait X 120 sched w = (poll_outcome (state (machine wk)), wk).
Proof.
  intros K R P T.
  replace 120 with (k + S (119 - k)) by lia.
  rewrite (handleMount_wait_pending X k (S (119 - k)) sched w wk R P).
  exact (handleMount_wait_terminal X (119 - k) (skipn k sched) wk T).
Qed.

(** The legacy Mount without a pipe, once the polling has met a terminal
    state: what is left is the reset of the credentials. *)
Lemma Mount_legacy_polls (X : Externals) url rwf i garbage env sched w w2 wk k :
  emitMountEvent X env (retargeted w (Some (mkTarget url rwf None None)))
    = (Val tt, w2) ->
  k < 120 ->
  run_waits X k sched w2 = (Val tt, wk) ->
  polls_pending X k sched w2 = true ->
  terminal (state (machine wk)) = true ->
  Mount_legacy X url rwf (fd_int i) garbage env sched w =
    match target (machine wk) with
    | None => (Undefined "machine.target accessed while empty", wk)
    | Some t =>
        (poll_outcome (state (machine wk)),
         retargeted wk (Some (mkTarget (imgUrl t) (rw t) (mountDir t) None)))
    end.
Proof.
  intros E K R P T.
  unfold Mount_legacy, handleMount.
  change (set_target (Some (mkTarget url rwf None None)))
    with (fun w0 => (Val tt, retargeted w0 (Some (mkTarget url rwf None None)))).
  unfold bind at 1 2. cbn [ret]. unfold try_catch at 1. unfold bind at 1 2.
  unfold try_catch at 1. rewrite E.
  rewrite (handleMount_wait_stops X k sched w2 wk K R P T).
  unfold reset_credentials, deref_target, bind, get_machine, ret, undefined,
    throw, set_target, set_machine.
  destruct (poll_outcome (state (machine wk))) as [b|e|u|] eqn:O;
    destruct (target (machine wk)) as [t|] eqn:TG; try reflexivity.
  all: unfold poll_outcome in O;
    destruct (state (machine wk)) as [|[err|]| | | |]; discriminate O.
Qed.

(** C3.  The polling is done by [handleMount], which answers as the
    specification says.  The legacy Mount method wraps it and resets the
    credentials of the target once it has answered or thrown.  When the
    poll finds the slot in Ready, with or without an error,
    [ReadyState::onEnter] has already reset the target: where
    [handleMount] answers false or raises the IPC error with the error's
    code and message, the method ends in an access to the empty
    optional. *)
Theorem C3_legacy_Mount_finds_Ready (X : Externals) (url : string) (rwf : bool)
    (i : Z) (garbage : nat -> ascii) (env : Env) (sched : Schedule)
    (w w2 wk : World) (k : nat) :
  emitMountEvent X env (retargeted w (Some (mkTarget url rwf None None)))
    = (Val tt, w2) ->
  k < 120 ->
  run_waits X k sched w2 = (Val tt, wk) ->
  polls_pending X k sched w2 = true ->
  is_Ready (state (machine wk)) = true ->
  handleMount X env sched (retargeted w (Some (mkTarget url rwf None None))) =
    (match ready_error (state (machine wk)) with
     | Some e => Throw (SdBusError (errc_int (code e)) (message e))
     | None => Val false
     end, wk) /\
  Mount_legacy X url rwf (fd_int i) garbage env sched w =
    (Undefined "machine.target accessed while empty", wk).
Proof.
  intros E K R P T.
  assert (I2 : Ready_without_target w2).
  { pose proof (emitEvent_spec X env MountEvent
                  (retargeted w (Some (mkTarget url rwf None None)))) as Q.
    unfold emitMountEvent in E. rewrite E in Q.
    destruct Q as (_ & _ & _ & TG). intros RR. now rewrite RR in TG. }
  pose proof (run_waits_Ready_without_target X k sched w2 wk R I2 T) as N.
  assert (TM : terminal (state (machine wk)) = true)
    by (unfold terminal; now rewrite T).
  split.
  - unfold handleMount, bind, try_catch. rewrite E.
    rewrite (handleMount_wait_stops X k sched w2 wk K R P TM).
    destruct (state (machine wk)) as [|[err|]| | | |]; try discriminate T;
      reflexivity.
  - rewrite (Mount_legacy_polls X url rwf i garbage env sched w w2 wk k
               E K R P TM).
    now rewrite N.
Qed.

(** The third scenario of the specification: Mount("ftp://x/y") on a legacy
    slot in Ready. *)
Lemma C3_legacy_Mount_finds_Ready_witness :
  let w := Run.registered legacy in
  let url := "ftp://x/y" in
  let w2 := snd (emitMountEvent Run.X0 Demo.fine
                   (retargeted w (Some (mkTarget url false None None)))) in
  emitMountEvent Run.X0 Demo.fine
      (retargeted w (Some (mkTarget url false None None))) = (Val tt, w2) /\
  0 < 120 /\
  run_waits Run.X0 0 [] w2 = (Val tt, w2) /\
  polls_pending Run.X0 0 [] w2 = true /\
  is_Ready (state (machine w2)) = true /\
  handleMount Run.X0 Demo.fine []
      (retargeted w (Some (mkTarget url false None None))) =
    (match ready_error (state (machine w2)) with
     | Some e => Throw (SdBusError (errc_int (code e)) (message e))
     | None => Val false
     end, w2) /\
  Mount_legacy Run.X0 url false (fd_int 0) Run.stale Demo.fine [] w =
    (Undefined "machine.target accessed while empty", w2).
Proof.
  intros w url w2.
  assert (E : emitMountEvent Run.X0 Demo.fine
                (retargeted w (Some (mkTarget url false None None)))
              = (Val tt, w2)) by (vm_compute; reflexivity).
  assert (K : 0 < 120) by lia.
  assert (R : run_waits Run.X0 0 [] w2 = (Val tt, w2)) by reflexivity.
  assert (P : polls_pending Run.X0 0 [] w2 = true) by reflexivity.
  assert (T : is_Ready (state (machine w2)) = true) by (vm_compute; reflexivity).
  repeat (split; [assumption|]).
  exact (C3_legacy_Mount_finds_Ready Run.X0 url false 0 Run.stale Demo.fine []
           w w2 w2 0 E K R P T).
Defined.

(** The two answers that are lost, on the slot of the worked examples.  An
    unrecognised URL: the poll finds Ready with (invalid_argument, "URL not
    recognized"), for which [handleMount] raises the IPC error with code 22.
    An Unmount by another client and the exit of the subprocess during the
    first wait: the poll finds Ready without an error, for which
    [handleMount] answers false.  The legacy method ends both calls in the
    access to the empty optional. *)
Example legacy_Mount_loses_both_answers :
  let w := Run.registered legacy in
  let bad := Some (mkTarget "ftp://x/y" false None None) in
  let https := Some (mkTarget "https://host/image.iso" false None None) in
  let cancelled := [[IpcUnmount Demo.fine; ProcessExit 0 Demo.fine]] in
  fst (handleMount Run.X0 Demo.fine [] (retargeted w bad)) =
    Throw (SdBusError 22 "URL not recognized") /\
  fst (Mount_legacy Run.X0 "ftp://x/y" false (fd_int 0) Run.stale Demo.fine [] w) =
    Undefined "machine.target accessed while empty" /\
  fst (handleMount Run.X0 Demo.fine cancelled (retargeted w https)) = Val false /\
  fst (Mount_legacy Run.X0 "https://host/image.iso" false (fd_int 0) Run.stale
         Demo.fine cancelled w) =
    Undefined "machine.target accessed while empty".
Proof. vm_compute. repeat split. Qed.

(* ------------------------------------------------------------------ *)
(** ** Credentials read from the pipe *)

(** The rejection itself is as the specification says: whenever the bytes
    read hold a number of NULs other than two, the method raises
    (EINVAL, "Malformed extra data") ... *)
Lemma read_credentials_rejects (X : Externals) (pipe : PipeRead)
    (garbage : nat -> ascii) (w : World) :
  let buf0 := map garbage (seq 0 (secretLimit X)) in
  let size := Nat.min (List.length (delivered pipe)) (secretLimit X) in
  let buf := firstn size (delivered pipe) ++ skipn size buf0 in
  during_read pipe = [] ->
  size <> 0 ->
  count_occ ascii_dec (firstn size buf) zero <> 2 ->
  fst (read_credentials X pipe garbage w) =
    Throw (SdBusError EINVAL "Malformed extra data") /\
  (* ... but the buffer still holds what was read. *)
  raw_buf (snd (read_credentials X pipe garbage w)) = Some buf.
Proof.
  intros buf0 size buf D S C. unfold read_credentials.
  fold buf0. fold size. fold buf. rewrite D.
  unfold bind. cbn [set_raw_buf run_activities ret].
  destruct (Nat.eqb_spec size 0) as [Z|_]; [now elim S|]. cbn [andb].
  destruct (Nat.eqb_spec (count_occ ascii_dec (firstn size buf) zero) 2)
    as [Z|_]; [now elim C|].
  cbn. split; reflexivity.
Qed.

(** C2.  At the pipe contents [alice\0] the legacy Mount raises
    (EINVAL, "Malformed extra data") and the slot stays in Ready, as
    claimed; but the raw buffer is not zeroized on this path: after the
    call it still starts with the bytes that were read. *)
Theorem C2_rejected_pipe_is_not_zeroized :
  let call :=
    Mount_legacy Run.X0 "smb://host/share/sub/file.iso" false
      (fd_unix (mkPipeRead Run.alice_nul [])) Run.stale Demo.fine []
      (Run.registered legacy) in
  fst call = Throw (SdBusError EINVAL "Malformed extra data") /\
  state (machine (snd call)) = ReadyState None /\
  option_map (firstn 6) (raw_buf (snd call)) = Some Run.alice_nul /\
  option_map (firstn 6) (raw_buf (snd call)) <>
    Some (secureCleanup Run.alice_nul).
Proof. vm_compute. repeat split. discriminate. Qed.

(** On the accepting path the buffer is zeroized. *)
Example accepted_pipe_is_zeroized :
  let call :=
    Mount_legacy Run.X0 "smb://host/share/sub/file.iso" false
      (fd_unix (mkPipeRead Run.alice_s3cret [])) Run.stale Demo.fine
      [[DeviceChange "/dev/nbd0" inserted Demo.fine]]
      (Run.registered legacy) in
  fst call = Val true /\
  raw_buf (snd call) = Some (repeat zero 1024).
Proof. vm_compute. split; reflexivity. Qed.

(* ------------------------------------------------------------------ *)
(** ** The scratch directory *)

(** C4.  A legacy CIFS mount is brought up; the Mount method is called a
    second time while the slot is Active, which replaces the stored target
    and with it the recorded scratch directory; then the slot is unmounted
    and the subprocess exits.  The slot is back in Ready, and the scratch
    directory still exists with the share mounted on it.  This holds for
    both readings of [SmbShare::unmount]. *)
Theorem C4_scratch_directory_survives (removes : bool) :
  let X := Demo.externals removes in
  let ready := snd (emitRegisterDBusEvent X Demo.fine (Demo.boot legacy "Slot_0")) in
  let first :=
    Mount_legacy X "smb://host/share/sub/a.iso" false (fd_int 0) Run.stale
      Demo.fine [[DeviceChange "/dev/nbd0" inserted Demo.fine]] ready in
  let second :=
    Mount_legacy X "smb://host/share/sub/b.iso" false (fd_int 0) Run.stale
      Demo.fine [] (snd first) in
  let last := Unmount X Demo.fine [[ProcessExit 0 Demo.fine]] (snd second) in
  fst first = Val true /\
  is_Active (state (machine (snd first))) = true /\
  option_map mountDir (target (machine (snd first))) = Some (Some "/tmp/Slot_0") /\
  fst second = Val true /\
  option_map mountDir (target (machine (snd second))) = Some None /\
  fst last = Val true /\
  state (machine (snd last)) = ReadyState None /\
  target (machine (snd last)) = None /\
  path_in "/tmp/Slot_0" (dirs (snd last)) = true /\
  path_in "/tmp/Slot_0" (mounts (snd last)) = true.
Proof. destruct removes; vm_compute; repeat split. Qed.

(** Without the second call the same run cleans up (when
    [SmbShare::unmount] removes the directory). *)
Example scratch_directory_removed_on_plain_cycle :
  let X := Demo.externals true in
  let ready := snd (emitRegisterDBusEvent X Demo.fine (Demo.boot legacy "Slot_0")) in
  let first :=
    Mount_legacy X "smb://host/share/sub/a.iso" false (fd_int 0) Run.stale
      Demo.fine [[DeviceChange "/dev/nbd0" inserted Demo.fine]] ready in
  let last := Unmount X Demo.fine [[ProcessExit 0 Demo.fine]] (snd first) in
  state (machine (snd last)) = ReadyState None /\
  dirs (snd last) = [] /\ mounts (snd last) = [].
Proof. vm_compute. repeat split. Qed.

(** If [SmbShare::unmount] only unmounts, the directory is also left behind
    by a plain cycle and by the failure to start the NBD server, where the
    sibling path for a failed CIFS mount calls [fs::remove_all]. *)
Example scratch_directory_left_when_unmount_only_unmounts :
  let X := Demo.externals false in
  let ready := snd (emitRegisterDBusEvent X Demo.fine (Demo.boot legacy "Slot_0")) in
  let first :=
    Mount_legacy X "smb://host/share/sub/a.iso" false (fd_int 0) Run.stale
      Demo.fine [[DeviceChange "/dev/nbd0" inserted Demo.fine]] ready in
  let last := Unmount X Demo.fine [[ProcessExit 0 Demo.fine]] (snd first) in
  let failed :=
    snd (emitMountEvent X Run.spawn_fails
           (snd (set_target (Some Run.cifs_target) ready))) in
  (state (machine (snd last)) = ReadyState None /\
   dirs (snd last) = ["/tmp/Slot_0"] /\ mounts (snd last) = []) /\
  (state (machine failed) =
     ReadyState (Some (mkError operation_canceled "Unable to setup NbdKit")) /\
   dirs failed = ["/tmp/Slot_0"] /\ mounts failed = []).
Proof. vm_compute. repeat split. Qed.

(* ------------------------------------------------------------------ *)
(** ** The WriteProtected property *)

(** The getter reads the target and nothing else. *)
Lemma WriteProtected_get_reads_target (w : World) :
  fst (WriteProtected_get w) =
    match target (machine w) with
    | Some t => Val (negb (rw t))
    | None => Undefined "machine.target accessed while empty"
    end.
Proof.
  unfold WriteProtected_get, deref_target, bind, get_machine, ret, undefined.
  destruct (target (machine w)) as [t|]; [|reflexivity].
  now destruct (rw t).
Qed.

(** C5.  A legacy slot mounted read-write from an HTTPS URL, with no device
    notification yet: the Mount method gives up after 120 polls, the slot
    is in WaitingForGadget, not Active, and WriteProtected reads false. *)
Theorem C5_WriteProtected_false_outside_Active :
  let call :=
    Mount_legacy Run.X0 "https://host/image.iso" true (fd_int 0) Run.stale
      Demo.fine [] (Run.registered legacy) in
  fst call = Val false /\
  is_WaitingForGadget (state (machine (snd call))) = true /\
  is_Active (state (machine (snd call))) = false /\
  fst (WriteProtected_get (snd call)) = Val false.
Proof. vm_compute. repeat split. Qed.

(** C10.  Right after registration the slot is in Ready with no target, and
    reading WriteProtected dereferences the empty optional; the same holds
    for a proxy slot in Active. *)
Theorem C10_WriteProtected_without_target :
  (forall md,
     state (machine (Run.registered md)) = ReadyState None /\
     target (machine (Run.registered md)) = None /\
     fst (WriteProtected_get (Run.registered md)) =
       Undefined "machine.target accessed while empty") /\
  (is_Active (state (machine Run.proxy_active)) = true /\
   fst (WriteProtected_get Run.proxy_active) =
     Undefined "machine.target accessed while empty").
Proof. split; [intros []|]; vm_compute; repeat split. Qed.

(* ------------------------------------------------------------------ *)
(** ** URL helpers of [ActivationStartedEvent] *)

Lemma length_String (c : ascii) (u : string) :
  String.length (String c u) = S (String.length u).
Proof. reflexivity. Qed.

Lemma substring_0_whole : forall (u : string) (m : nat),
  String.length u <= m -> substring 0 m u = u.
Proof.
  induction u as [|c u IH]; intros m H.
  - now destruct m.
  - rewrite length_String in H. destruct m as [|m]; [lia|].
    change (String c (substring 0 m u) = String c u).
    rewrite IH; [reflexivity | lia].
Qed.

Lemma substring_0_prefix : forall (s r : string),
  substring 0 (String.length s) (s ++ r) = s.
Proof.
  induction s as [|c s IH]; intros r.
  - change (substring 0 0 r = ""). now destruct r.
  - change (String c (substring 0 (String.length s) (s ++ r)) = String c s).
    now rewrite IH.
Qed.

Lemma substring_split : forall (u : string) (n m : nat),
  String.length u <= n + m ->
  (substring 0 n u ++ substring n m u)%string = u.
Proof.
  induction u as [|c u IH]; intros n m H.
  - now destruct n, m.
  - destruct n as [|n].
    + change ((substring 0 m (String c u))%string = String c u).
      apply substring_0_whole. exact H.
    + rewrite length_String in H.
      change (String c (substring 0 n u ++ substring n m u) = String c u).
      rewrite IH; [reflexivity | lia].
Qed.

(** X1.  [checkUrl scheme url] holds exactly when [url] starts with
    [scheme]; a URL shorter than the scheme is not an error, it simply does
    not match. *)
Theorem checkUrl_prefix (urlScheme imageUrl : string) :
  checkUrl urlScheme imageUrl = true <->
  exists rest, imageUrl = (urlScheme ++ rest)%string.
Proof.
  unfold checkUrl. split.
  - intros H. apply String.eqb_eq in H.
    exists (substring (String.length urlScheme) (String.length imageUrl) imageUrl).
    rewrite H at 1. symmetry. apply substring_split. lia.
  - intros [rest ->]. rewrite substring_0_prefix. apply String.eqb_refl.
Qed.

(** The two schemes exclude each other. *)
Lemma isCifsUrl_not_https (imageUrl : string) :
  isCifsUrl imageUrl = true -> isHttpsUrl imageUrl = false.
Proof.
  intros H. apply checkUrl_prefix in H. destruct H as [rest ->]. reflexivity.
Qed.

(** X2.  [getImagePath] drops the scheme and keeps its last slash: an
    [smb://] or [https://] URL gives ["/"] followed by what comes after the
    scheme; any other URL gives the empty path. *)
Theorem getImagePath_cases :
  (forall rest, getImagePath ("smb://" ++ rest) = ("/" ++ rest)%string) /\
  (forall rest, getImagePath ("https://" ++ rest) = ("/" ++ rest)%string) /\
  (forall url, isCifsUrl url = false -> isHttpsUrl url = false ->
               getImagePath url = "").
Proof.
  split; [|split].
  - intros rest.
    unfold getImagePath, getImagePathFromHttpsUrl, getImagePathFromCifsUrl,
      getImagePathFromUrl.
    change (checkUrl "https://" ("smb://" ++ rest)) with false.
    replace (checkUrl "smb://" ("smb://" ++ rest)) with true
      by (symmetry; apply checkUrl_prefix; now exists rest).
    change (substring (String.length "smb://" - 1)
              (String.length ("smb://" ++ rest)) ("smb://" ++ rest))
      with (String "/" (substring 0 (5 + String.length rest) rest)).
    rewrite substring_0_whole by lia. reflexivity.
  - intros rest.
    unfold getImagePath, getImagePathFromHttpsUrl, getImagePathFromUrl.
    replace (checkUrl "https://" ("https://" ++ rest)) with true
      by (symmetry; apply checkUrl_prefix; now exists rest).
    change (substring (String.length "https://" - 1)
              (String.length ("https://" ++ rest)) ("https://" ++ rest))
      with (String "/" (substring 0 (7 + String.length rest) rest)).
    rewrite substring_0_whole by lia. reflexivity.
  - intros url C H.
    unfold getImagePath, getImagePathFromHttpsUrl, getImagePathFromCifsUrl,
      getImagePathFromUrl.
    unfold isCifsUrl in C. unfold isHttpsUrl in H. now rewrite C, H.
Qed.

Lemma getImagePath_cases_witness :
  isCifsUrl "ftp://x/y" = false /\ isHttpsUrl "ftp://x/y" = false /\
  getImagePath "ftp://x/y" = "" /\
  getImagePath ("smb://" ++ "host/share/file.iso") = "/host/share/file.iso".
Proof.
  assert (C : isCifsUrl "ftp://x/y" = false) by (vm_compute; reflexivity).
  assert (H : isHttpsUrl "ftp://x/y" = false) by (vm_compute; reflexivity).
  repeat (split; [assumption|]).
  split.
  - exact (proj2 (proj2 getImagePath_cases) "ftp://x/y" C H).
  - exact (proj1 getImagePath_cases "host/share/file.iso").
Defined.

(* ------------------------------------------------------------------ *)
(** ** Events, one at a time and in sequence *)

(** X3.  [emitEvent] re-enters itself through [ActivatingState::onEnter];
    the recursion never goes deeper than two calls: with depth two it never
    stops for lack of fuel, and more depth gives the same result. *)
Theorem emitEvent_depth_two (X : Externals) (n : nat) (env : Env) (ev : Event)
    (w : World) :
  fst (emitEvent X env ev w) <> NoFuel /\
  emitEvent_fuel X (2 + n) env ev w = emitEvent X env ev w.
Proof.
  split; [apply emitEvent_has_fuel | apply emitEvent_fuel_enough].
Qed.

Lemma step_leaves_Activating ev s s' : step ev s s' -> s <> ActivatingState ->
  s' <> ActivatingState.
Proof.
  intros (s1 & T & S1) A.
  destruct s1; cbn in S1; try (subst s'; discriminate).
  destruct S1 as [[p ->]|[e ->]]; discriminate.
Qed.

Lemma step_from_Activating ev s' : step ev ActivatingState s' ->
  s' <> ActivatingState.
Proof.
  intros (s1 & T & S1).
  destruct s1; cbn in S1; try (subst s'; discriminate).
  destruct S1 as [[p ->]|[e ->]]; discriminate.
Qed.

(** X4.  Activating is transient: no event that completes leaves the slot
    in Activating, whatever the state it was applied in. *)
Theorem Activating_is_transient (X : Externals) (env : Env) (ev : Event)
    (w w' : World) :
  emitEvent X env ev w = (Val tt, w') ->
  state (machine w') <> ActivatingState.
Proof.
  intros E. pose proof (emitEvent_spec X env ev w) as P. rewrite E in P.
  destruct P as (_ & _ & ST & _).
  destruct (state (machine w)) eqn:S;
    try (apply (step_leaves_Activating _ _ _ ST); discriminate).
  exact (step_from_Activating _ _ ST).
Qed.

Lemma Activating_is_transient_witness :
  let w := Run.legacy_requested in
  let w' := snd (emitEvent Run.X0 Demo.fine MountEvent w) in
  emitEvent Run.X0 Demo.fine MountEvent w = (Val tt, w') /\
  state (machine w') <> ActivatingState.
Proof.
  intros w w'.
  assert (E : emitEvent Run.X0 Demo.fine MountEvent w = (Val tt, w'))
    by (vm_compute; reflexivity).
  split; [exact E|].
  exact (Activating_is_transient Run.X0 Demo.fine MountEvent w w' E).
Defined.

Lemma Unmount_on_empty_slot (X : Externals) env w :
  is_Ready (state (machine w)) = true \/
  (exists p, state (machine w) = WaitingForProcessEndState p) ->
  emitEvent X env UnmountEvent w =
    (Throw (InvalidStateError "Could not unmount on empty slot"), w).
Proof.
  expose_world w. cbn [machine state].
  intros [R | [p ->]]; [destruct w_state; try discriminate R|]; reflexivity.
Qed.

(** X5.  The machine raises InvalidStateError in exactly one situation:
    Unmount applied in Ready or in WaitingForProcessEnd.  The message is
    "Could not unmount on empty slot" and nothing has changed when it is
    raised.  In particular the Mount event never raises it, in whatever
    state it is applied. *)
Theorem InvalidStateError_only_from_Unmount (X : Externals) (env : Env)
    (ev : Event) (w : World) :
  (forall what w',
     emitEvent X env ev w = (Throw (InvalidStateError what), w') ->
     ev = UnmountEvent /\
     what = "Could not unmount on empty slot" /\
     w' = w) /\
  ((exists what w',
      emitEvent X env ev w = (Throw (InvalidStateError what), w')) <->
   ev = UnmountEvent /\
   (is_Ready (state (machine w)) = true \/
    exists p, state (machine w) = WaitingForProcessEndState p)) /\
  (forall what w',
     emitMountEvent X env w <> (Throw (InvalidStateError what), w')).
Proof.
  assert (T : forall what w',
            emitEvent X env ev w = (Throw (InvalidStateError what), w') ->
            ev = UnmountEvent /\
            (is_Ready (state (machine w)) = true \/
             exists p, state (machine w) = WaitingForProcessEndState p) /\
            what = "Could not unmount on empty slot" /\ w' = w).
  { intros what w' E. pose proof (emitEvent_spec X env ev w) as P.
    rewrite E in P.
    destruct P as (_ & _ & [(A & B & C & D) | ([what' K] & _)]);
      [|discriminate K].
    inversion C. now repeat split. }
  split; [|split].
  - intros what w' E. destruct (T what w' E) as (A & _ & B & C). now repeat split.
  - split.
    + intros (what & w' & E). destruct (T what w' E) as (A & B & _). now split.
    + intros [-> H]. do 2 eexists. exact (Unmount_on_empty_slot X env w H).
  - intros what w' E. unfold emitMountEvent in E.
    pose proof (emitEvent_spec X env MountEvent w) as P. rewrite E in P.
    destruct P as (_ & _ & [(A & _) | ([what' K] & _)]); discriminate.
Qed.

Lemma InvalidStateError_only_from_Unmount_witness :
  let w := Run.registered proxy in
  is_Ready (state (machine w)) = true /\
  exists what w',
    emitEvent Run.X0 Demo.fine UnmountEvent w =
      (Throw (InvalidStateError what), w').
Proof.
  intros w.
  assert (R : is_Ready (state (machine w)) = true) by (vm_compute; reflexivity).
  split; [exact R|].
  exact (proj2 (proj1 (proj2 (InvalidStateError_only_from_Unmount
                                Run.X0 Demo.fine UnmountEvent w)))
           (conj eq_refl (or_introl R))).
Defined.

Lemma insertion_in_WaitingForGadget (X : Externals) env w p :
  state (machine w) = WaitingForGadgetState p ->
  exists w',
    emitEvent X env (UdevStateChangeEvent inserted) w = (Val tt, w') /\
    state (machine w') =
      if Z.eqb (gadget_ret env) 0 then ActiveState p
      else ReadyState (Some (mkError device_or_resource_busy
                                     "Unable to configure gadget")).
Proof.
  expose_world w. expose_env env. cbn [machine state gadget_ret]. intros ->.
  exec; eexists; split; reflexivity.
Qed.

Lemma insertion_needs_gadget (X : Externals) env w p w' :
  state (machine w) = WaitingForGadgetState p ->
  emitEvent X env (UdevStateChangeEvent inserted) w = (Val tt, w') ->
  is_Active (state (machine w')) = true ->
  gadget_ret env = 0%Z.
Proof.
  intros S E A.
  destruct (insertion_in_WaitingForGadget X env w p S) as (w2 & E2 & S2).
  rewrite E in E2. inversion E2; subst w2.
  destruct (Z.eqb_spec (gadget_ret env) 0) as [Z|Z]; [exact Z|].
  rewrite S2 in A. discriminate A.
Qed.

(** X6.  A slot becomes Active in one way only: an [inserted] notification
    applied in WaitingForGadget for which the gadget helper returned 0.
    The subprocess handle is carried over. *)
Theorem Active_only_by_insertion (X : Externals) (env : Env) (ev : Event)
    (w w' : World) :
  emitEvent X env ev w = (Val tt, w') ->
  is_Active (state (machine w)) = false ->
  is_Active (state (machine w')) = true ->
  exists p,
    ev = UdevStateChangeEvent inserted /\
    state (machine w) = WaitingForGadgetState p /\
    state (machine w') = ActiveState p /\
    gadget_ret env = 0%Z.
Proof.
  intros E A A'. pose proof (emitEvent_spec X env ev w) as P. rewrite E in P.
  destruct P as (_ & _ & ST & _).
  destruct (step_into_Active _ _ _ ST A A') as (p & -> & S & S').
  exists p. repeat split; try assumption.
  exact (insertion_needs_gadget X env w p w' S E A').
Qed.

Lemma Active_only_by_insertion_witness :
  let w := Run.proxy_waiting in
  let ev := UdevStateChangeEvent inserted in
  let w' := snd (emitEvent Run.X0 Demo.fine ev w) in
  emitEvent Run.X0 Demo.fine ev w = (Val tt, w') /\
  is_Active (state (machine w)) = false /\
  is_Active (state (machine w')) = true /\
  exists p,
    ev = UdevStateChangeEvent inserted /\
    state (machine w) = WaitingForGadgetState p /\
    state (machine w') = ActiveState p /\
    gadget_ret Demo.fine = 0%Z.
Proof.
  intros w ev w'.
  assert (E : emitEvent Run.X0 Demo.fine ev w = (Val tt, w'))
    by (vm_compute; reflexivity).
  assert (A : is_Active (state (machine w)) = false) by (vm_compute; reflexivity).
  assert (A' : is_Active (state (machine w')) = true) by (vm_compute; reflexivity).
  repeat (split; [assumption|]).
  exact (Active_only_by_insertion Run.X0 Demo.fine ev w w' E A A').
Defined.

(** *** Histories *)

Section Histories.

Variable X : Externals.

(** What one delivery does to the state and to the trace. *)
Lemma deliver_moves env ev w :
  let s := state (machine w) in
  let s' := state (machine (snd (deliver X env ev w))) in
  extends w (snd (deliver X env ev w)) (handler_events (machine w) ev s (Val s')) /\
  (step ev s s' \/ s' = s \/ s' = ActivatingState) /\
  (forall e, fst (deliver X env ev w) <> Throw e) /\
  fst (deliver X env ev w) <> NoFuel.
Proof.
  unfold deliver, try_catch.
  pose proof (emitEvent_spec X env ev w) as P.
  destruct (emitEvent X env ev w) as [[[]|e|u|] w']; cbn [fst snd ret].
  - destruct P as (EX & _ & ST & _).
    split; [exact EX | split; [now left | split; [intros e0 K|intros K]; discriminate K]].
  - destruct P as (EX & _ & [(_ & _ & _ & ->) | (_ & S' & _)]).
    + split; [exact EX | split; [right; now left | split; [intros e0 K|intros K]; discriminate K]].
    + split; [exact EX | split; [right; right; exact S' | split; [intros e0 K|intros K]; discriminate K]].
  - destruct P as (EX & _ & S).
    split; [exact EX | split; [right; exact S | split; [intros e0 K|intros K]; discriminate K]].
  - destruct P as (_ & _ & []).
Qed.

Lemma step_has_process ev s s' :
  has_process s -> step ev s s' -> has_process s'.
Proof.
  intros H (s1 & T & S1).
  destruct s1; cbn in S1; try subst s'.
  1, 2, 4, 5, 6:
    destruct ev as [| | | | |[|]], s; cbn in T, H |- *;
    repeat match goal with
           | K : _ \/ _ |- _ => destruct K
           | K : exists _, _ |- _ => destruct K
           | K : False |- _ => destruct K
           end;
    try discriminate; try exact I;
    try match goal with
        | K : _ = _ |- _ => inversion K; subst; first [assumption | discriminate]
        end.
  destruct S1 as [[p ->]|[e ->]]; cbn; [discriminate | exact I].
Qed.

(** X7.  Whatever events are delivered, in whatever order and with whatever
    helper results, a slot in WaitingForGadget, Active or
    WaitingForProcessEnd holds a handle to a subprocess, once this holds at
    the start (as it does in Initial). *)
Theorem process_handle_invariant (h : list (Env * Event)) (w : World) :
  has_process (state (machine w)) ->
  has_process (state (machine (snd (history X h w)))).
Proof.
  revert w. induction h as [|[env ev] h IH]; intros w H; [exact H|].
  cbn [history]. unfold bind.
  pose proof (deliver_moves env ev w) as (_ & M & _ & _).
  assert (H' : has_process (state (machine (snd (deliver X env ev w))))).
  { destruct M as [M|[M|M]].
    - exact (step_has_process _ _ _ H M).
    - now rewrite M.
    - now rewrite M. }
  destruct (deliver X env ev w) as [[[]|e|u|] w1]; cbn [snd] in *; auto.
Qed.

Lemma sent_extends k w w' evs :
  extends w w' evs ->
  sent k w' = List.length (filter (is_msg k) evs) + sent k w.
Proof.
  intros [_ (new & T & R)]. unfold sent.
  now rewrite T, redfish_app, R, filter_app, length_app.
Qed.

Lemma deliver_balanced env ev w :
  balanced w -> balanced (snd (deliver X env ev w)).
Proof.
  intros [B1 B2].
  pose proof (deliver_moves env ev w) as (EX & M & _ & _). cbv zeta in EX, M.
  set (w' := snd (deliver X env ev w)) in *.
  pose proof (sent_extends RESOURCE_CREATED _ _ _ EX) as C.
  pose proof (sent_extends RESOURCE_DELETED _ _ _ EX) as D.
  assert (K : is_Active (state (machine w')) = true ->
              is_Active (state (machine w)) = false ->
              exists p, ev = UdevStateChangeEvent inserted /\
                        state (machine w) = WaitingForGadgetState p /\
                        state (machine w') = ActiveState p).
  { intros A' A. destruct M as [M|[M|M]].
    - exact (step_into_Active _ _ _ M A A').
    - rewrite M in A'. congruence.
    - rewrite M in A'. discriminate. }
  unfold balanced.
  destruct (is_Active (state (machine w'))) eqn:A'.
  - destruct (is_Active (state (machine w))) eqn:A.
    + (* Active before and after: nothing is sent *)
      assert (E : handler_events (machine w) ev (state (machine w))
                    (Val (state (machine w'))) = []).
      { destruct ev, (state (machine w)), (state (machine w'));
          try reflexivity; discriminate. }
      rewrite E in C, D. cbn in C, D. specialize (B2 eq_refl). lia.
    + destruct (K eq_refl eq_refl) as (p & -> & S & S').
      rewrite S, S' in C, D. cbn in C, D. lia.
  - assert (E : List.length (filter (is_msg RESOURCE_CREATED)
                   (handler_events (machine w) ev (state (machine w))
                      (Val (state (machine w'))))) = 0).
    { destruct ev, (state (machine w)), (state (machine w'));
        try reflexivity; discriminate. }
    rewrite E in C.
    split; [|discriminate].
    destruct (is_Active (state (machine w))) eqn:A.
    + specialize (B2 eq_refl).
      assert (E2 : List.length (filter (is_msg RESOURCE_DELETED)
                     (handler_events (machine w) ev (state (machine w))
                        (Val (state (machine w'))))) <= 1).
      { destruct ev, (state (machine w)), (state (machine w')); cbn; lia. }
      lia.
    + assert (E2 : List.length (filter (is_msg RESOURCE_DELETED)
                     (handler_events (machine w) ev (state (machine w))
                        (Val (state (machine w'))))) = 0).
      { destruct ev, (state (machine w)), (state (machine w'));
          try reflexivity; discriminate. }
      lia.
Qed.

(** X8.  Over any history, RESOURCE_DELETED events never outnumber
    RESOURCE_CREATED events, and while the slot is Active one creation is
    still unanswered: every deletion follows its own creation. *)
Theorem redfish_events_balanced (h : list (Env * Event)) (w : World) :
  balanced w -> balanced (snd (history X h w)).
Proof.
  revert w. induction h as [|[env ev] h IH]; intros w H; [exact H|].
  cbn [history]. unfold bind.
  pose proof (deliver_balanced env ev w H) as H'.
  destruct (deliver X env ev w) as [[[]|e|u|] w1]; cbn [snd] in *; auto.
Qed.

End Histories.

Lemma process_handle_invariant_witness :
  let h := [(Demo.fine, RegisterDbusEvent); (Demo.fine, MountEvent);
            (Demo.fine, UdevStateChangeEvent inserted);
            (Demo.fine, UnmountEvent)] in
  has_process (state (machine (Demo.boot proxy "Slot_0"))) /\
  has_process (state (machine (snd (history Run.X0 h (Demo.boot proxy "Slot_0"))))).
Proof.
  intros h.
  assert (H : has_process (state (machine (Demo.boot proxy "Slot_0")))) by exact I.
  split; [exact H|].
  exact (process_handle_invariant Run.X0 h (Demo.boot proxy "Slot_0") H).
Defined.

Lemma redfish_events_balanced_witness :
  let h := [(Demo.fine, RegisterDbusEvent); (Demo.fine, MountEvent);
            (Demo.fine, UdevStateChangeEvent inserted);
            (Demo.fine, UnmountEvent)] in
  balanced (Demo.boot proxy "Slot_0") /\
  balanced (snd (history Run.X0 h (Demo.boot proxy "Slot_0"))).
Proof.
  intros h.
  assert (H : balanced (Demo.boot proxy "Slot_0")).
  { split; [apply Nat.le_refl | intros A; discriminate A]. }
  split; [exact H|].
  exact (redfish_events_balanced Run.X0 h (Demo.boot proxy "Slot_0") H).
Defined.

(* ------------------------------------------------------------------ *)
(** ** Reading the credentials *)

Lemma c_str_prefix (s : string) (rest : list ascii) :
  nul_free s -> c_str (list_ascii_of_string s ++ zero :: rest) = s.
Proof.
  unfold nul_free. induction s as [|c s IH]; intros N; [reflexivity|].
  cbn [list_ascii_of_string List.app c_str] in *.
  destruct (Ascii.eqb_spec c zero) as [E|E].
  - elim N. left. now symmetry.
  - rewrite IH; [reflexivity|]. intros K. apply N. now right.
Qed.

Lemma length_list_ascii (s : string) :
  List.length (list_ascii_of_string s) = String.length s.
Proof.
  induction s as [|c s IH]; [reflexivity|].
  cbn [list_ascii_of_string List.length]. rewrite length_String. now rewrite IH.
Qed.

Lemma count_nul_free (s : string) :
  nul_free s -> count_occ ascii_dec (list_ascii_of_string s) zero = 0.
Proof. intros N. now apply count_occ_not_In. Qed.

Lemma pipe_bytes_length usr pass :
  List.length (pipe_bytes usr pass) = String.length usr + String.length pass + 2.
Proof.
  unfold pipe_bytes.
  rewrite length_app. cbn [List.length]. rewrite length_app. cbn [List.length].
  rewrite !length_list_ascii. lia.
Qed.

Lemma pipe_bytes_nuls usr pass :
  nul_free usr -> nul_free pass ->
  count_occ ascii_dec (pipe_bytes usr pass) zero = 2.
Proof.
  intros U P. unfold pipe_bytes.
  rewrite count_occ_app, (count_nul_free _ U).
  rewrite count_occ_cons_eq by reflexivity.
  rewrite count_occ_app, (count_nul_free _ P).
  reflexivity.
Qed.

(** X9.  Round trip through the pipe: when the pipe delivers a NUL-free
    user name and password, each followed by one NUL, and they fit in the
    buffer, the method stores exactly that user name and password in the
    target, and the raw buffer is all zeros afterwards, whatever it held
    before. *)
Theorem read_credentials_round_trip (X : Externals) (usr pass : string)
    (garbage : nat -> ascii) (w : World) (t : Target) :
  target (machine w) = Some t ->
  nul_free usr -> nul_free pass ->
  String.length usr + String.length pass + 2 <= secretLimit X ->
  exists w',
    read_credentials X (mkPipeRead (pipe_bytes usr pass) []) garbage w
      = (Val tt, w') /\
    target (machine w') =
      Some (mkTarget (imgUrl t) (rw t) (mountDir t)
                     (Some (mkCredentials usr pass))) /\
    raw_buf w' = Some (repeat zero (secretLimit X)) /\
    state (machine w') = state (machine w).
Proof.
  intros T U P L.
  unfold read_credentials.
  cbn [delivered during_read run_activities].
  set (buf0 := map garbage (seq 0 (secretLimit X))).
  pose proof (pipe_bytes_length usr pass) as LEN.
  replace (Nat.min (List.length (pipe_bytes usr pass)) (secretLimit X))
    with (List.length (pipe_bytes usr pass)) by lia.
  rewrite firstn_all.
  set (size := List.length (pipe_bytes usr pass)) in *.
  set (buf := (pipe_bytes usr pass ++ skipn size buf0)%list).
  assert (F : firstn size buf = pipe_bytes usr pass).
  { unfold buf, size. rewrite firstn_app, firstn_all, Nat.sub_diag.
    cbn [firstn]. now rewrite app_nil_r. }
  rewrite F, (pipe_bytes_nuls usr pass U P).
  destruct (Nat.eqb_spec size 0) as [Z|_]; [lia|].
  cbn [andb negb Nat.eqb].
  assert (CU : c_str buf = usr).
  { unfold buf, pipe_bytes. rewrite <- app_assoc.
    now apply c_str_prefix. }
  assert (CP : c_str (skipn (String.length usr + 1) buf) = pass).
  { unfold buf, pipe_bytes. rewrite <- app_assoc.
    rewrite skipn_app, length_list_ascii.
    rewrite skipn_all2 by (rewrite length_list_ascii; lia).
    replace (String.length usr + 1 - String.length usr) with 1 by lia.
    cbn [List.app skipn]. rewrite <- app_assoc. now apply c_str_prefix. }
  rewrite CU, CP.
  assert (LB : List.length buf = secretLimit X).
  { unfold buf. rewrite length_app, length_skipn. unfold buf0.
    rewrite length_map, length_seq. lia. }
  destruct w as [[n c tg st ec] d m tr ck rb]. cbn [machine target] in T. subst tg.
  eexists. split; [reflexivity|]. cbn.
  repeat split. f_equal. unfold secureCleanup.
  rewrite <- LB. clear. induction buf as [|a l IH]; [reflexivity|].
  cbn. now rewrite IH.
Qed.

Lemma read_credentials_round_trip_witness :
  let w := Run.legacy_requested in
  target (machine w) = Some Run.cifs_target /\
  nul_free "alice" /\ nul_free "s3cret" /\
  String.length "alice" + String.length "s3cret" + 2 <= secretLimit Run.X0 /\
  exists w',
    read_credentials Run.X0 (mkPipeRead (pipe_bytes "alice" "s3cret") [])
      Run.stale w = (Val tt, w') /\
    target (machine w') =
      Some (mkTarget (imgUrl Run.cifs_target) (rw Run.cifs_target)
                     (mountDir Run.cifs_target)
                     (Some (mkCredentials "alice" "s3cret"))) /\
    raw_buf w' = Some (repeat zero (secretLimit Run.X0)) /\
    state (machine w') = state (machine w).
Proof.
  intros w.
  assert (T : target (machine w) = Some Run.cifs_target)
    by (vm_compute; reflexivity).
  assert (U : nul_free "alice").
  { intros K. cbn in K. repeat (destruct K as [K|K]; [discriminate K|]). exact K. }
  assert (P : nul_free "s3cret").
  { intros K. cbn in K. repeat (destruct K as [K|K]; [discriminate K|]). exact K. }
  assert (L : String.length "alice" + String.length "s3cret" + 2
              <= secretLimit Run.X0) by (vm_compute; lia).
  repeat (split; [assumption|]).
  exact (read_credentials_round_trip Run.X0 "alice" "s3cret" Run.stale w
           Run.cifs_target T U P L).
Defined.

(* ------------------------------------------------------------------ *)
(** ** The Unmount method *)

Section UnmountMethod.

Variable X : Externals.

Lemma Unmount_wait_pending k : forall n sched w wk,
  run_waits X k sched w = (Val tt, wk) ->
  unmount_pending X k sched w = true ->
  Unmount_wait X (k + n) sched w = Unmount_wait X n (skipn k sched) wk.
Proof.
  induction k as [|k IH]; intros n sched w wk E P.
  - inversion E. reflexivity.
  - cbn [run_waits] in E. unfold bind in E.
    cbn [unmount_pending] in P. apply andb_prop in P. destruct P as [T P].
    destruct (timer_wait X (hd [] sched) w) as [[[]|e|u|] w1] eqn:W;
      try discriminate.
    cbn [snd] in P.
    replace (skipn (S k) sched) with (skipn k (tl sched))
      by (destruct sched; [now destruct k | reflexivity]).
    rewrite <- (IH n (tl sched) w1 wk E P).
    cbn [Nat.add Unmount_wait]. unfold bind at 1. cbn [get_machine].
    apply negb_true_iff in T. rewrite T.
    unfold bind. now rewrite W.
Qed.

Lemma Unmount_wait_done n sched w :
  n = 0 \/ is_Ready (state (machine w)) = true ->
  Unmount_wait X n sched w = (Val tt, w).
Proof.
  intros [-> | R]; [reflexivity|].
  destruct n; [reflexivity|].
  cbn [Unmount_wait]. unfold bind. cbn [get_machine]. now rewrite R.
Qed.

End UnmountMethod.

(** X10.  Unmount on an empty slot: called in Ready or in
    WaitingForProcessEnd, the method fails at once with the IPC error
    (EPERM, "Could not unmount on empty slot"); nothing has changed and no
    time has passed. *)
Theorem Unmount_rejected (X : Externals) (env : Env) (sched : Schedule)
    (w : World) :
  is_Ready (state (machine w)) = true \/
  (exists p, state (machine w) = WaitingForProcessEndState p) ->
  Unmount X env sched w =
    (Throw (SdBusError EPERM "Could not unmount on empty slot"), w).
Proof.
  intros H. unfold Unmount, bind, try_catch, emitUnmountEvent.
  now rewrite (Unmount_on_empty_slot X env w H).
Qed.

Lemma Unmount_rejected_witness :
  is_Ready (state (machine (Run.registered proxy))) = true /\
  Unmount Run.X0 Demo.fine [] (Run.registered proxy) =
    (Throw (SdBusError EPERM "Could not unmount on empty slot"),
     Run.registered proxy).
Proof.
  assert (H : is_Ready (state (machine (Run.registered proxy))) = true)
    by (vm_compute; reflexivity).
  split; [exact H|].
  exact (Unmount_rejected Run.X0 Demo.fine [] (Run.registered proxy)
           (or_introl H)).
Defined.

(** X11.  Once its event is accepted, Unmount polls the state before each
    100 ms wait, at most 120 times, and answers true in every case: as soon
    as a poll finds the slot in Ready, or after the 120th wait with the
    slot still tearing down.  It never answers false. *)
Theorem Unmount_polling (X : Externals) (env : Env) (sched : Schedule)
    (w0 w wk : World) (k : nat) :
  emitUnmountEvent X env w0 = (Val tt, w) ->
  k <= 120 ->
  run_waits X k sched w = (Val tt, wk) ->
  unmount_pending X k sched w = true ->
  (k < 120 -> is_Ready (state (machine wk)) = true) ->
  Unmount X env sched w0 = (Val true, wk) /\
  clock_ms wk = clock_ms w + 100 * k.
Proof.
  intros E K R P T. split; [|exact (run_waits_clock X k sched w wk R)].
  unfold Unmount, bind, try_catch. rewrite E.
  replace 120 with (k + (120 - k)) at 1 by lia.
  rewrite (Unmount_wait_pending X k (120 - k) sched w wk R P).
  rewrite Unmount_wait_done; [reflexivity|].
  destruct (Nat.eq_dec k 120) as [->|N]; [now left | right; apply T; lia].
Qed.

Lemma Unmount_polling_witness :
  let sched := [[ProcessExit 0 Demo.fine]] in
  let w0 := Run.proxy_active in
  let w := snd (emitUnmountEvent Run.X0 Demo.fine w0) in
  let wk := snd (run_waits Run.X0 1 sched w) in
  emitUnmountEvent Run.X0 Demo.fine w0 = (Val tt, w) /\
  1 <= 120 /\
  run_waits Run.X0 1 sched w = (Val tt, wk) /\
  unmount_pending Run.X0 1 sched w = true /\
  (1 < 120 -> is_Ready (state (machine wk)) = true) /\
  Unmount Run.X0 Demo.fine sched w0 = (Val true, wk) /\
  clock_ms wk = clock_ms w + 100 * 1.
Proof.
  intros sched w0 w wk.
  assert (E : emitUnmountEvent Run.X0 Demo.fine w0 = (Val tt, w))
    by (vm_compute; reflexivity).
  assert (K : 1 <= 120) by lia.
  assert (R : run_waits Run.X0 1 sched w = (Val tt, wk))
    by (vm_compute; reflexivity).
  assert (P : unmount_pending Run.X0 1 sched w = true)
    by (vm_compute; reflexivity).
  assert (T : 1 < 120 -> is_Ready (state (machine wk)) = true)
    by (intros _; vm_compute; reflexivity).
  repeat (split; [assumption|]).
  exact (Unmount_polling Run.X0 Demo.fine sched w0 w wk 1 E K R P T).
Defined.

(* ------------------------------------------------------------------ *)
(** ** Activation *)

Ltac expose_config c :=
  destruct c as [c_mode c_device c_socket c_endpoint].

Ltac unfold_config :=
  cbv beta iota delta [mode nbdDevice unixSocket endPointId].

Ltac gadget_succeeded :=
  exfalso;
  match goal with
  | H : Z.eqb ?a 0 = false, G : ?a = 0%Z |- _ =>
      apply Z.eqb_neq in H; exact (H G)
  end.

(** Symbolic execution with the configuration exposed. *)
Ltac exec_config :=
  unfold_config; unfold_machine;
  repeat (split_test; unfold_config; unfold_machine).

Lemma proxy_activation_run (X : Externals) (env : Env) (w : World) :
  mode (config (machine w)) = proxy ->
  is_Ready (state (machine w)) = true ->
  target (machine w) = None ->
  emitMountEvent X env w =
    (Val tt,
     moved w
       (if spawn_ret env then WaitingForGadgetState (Some (nbd_client_of (machine w)))
        else ReadyState (Some (mkError operation_canceled "Failed to spawn process")))
       (-1)
       [ProcessSpawn (nbd_client_of (machine w)) (toArgs X (config (machine w)))]).
Proof.
  expose_world w. expose_env env. expose_config w_config.
  cbn [machine state config target mode]. intros -> R ->.
  destruct w_state; try discriminate R.
  unfold moved, nbd_client_of. exec_config; reflexivity.
Qed.

(** X12.  Activation of a proxy slot.  The Mount event applied in Ready
    resets the exit code to -1 and spawns the NBD client on the configured
    device with the arguments of the configuration.  If the spawn succeeds
    the slot waits for its gadget holding the process; if not it is back in
    Ready with (operation_canceled, "Failed to spawn process").  Nothing
    else is touched: no target, no directory, no mount. *)
Theorem proxy_activation (X : Externals) (env : Env) (w : World) :
  mode (config (machine w)) = proxy ->
  is_Ready (state (machine w)) = true ->
  target (machine w) = None ->
  exists w',
    emitMountEvent X env w = (Val tt, w') /\
    state (machine w') =
      (if spawn_ret env
       then WaitingForGadgetState (Some (nbd_client_of (machine w)))
       else ReadyState (Some (mkError operation_canceled
                                      "Failed to spawn process"))) /\
    exitCode (machine w') = (-1)%Z /\
    target (machine w') = None /\
    trace w' =
      ProcessSpawn (nbd_client_of (machine w)) (toArgs X (config (machine w)))
      :: trace w /\
    dirs w' = dirs w /\ mounts w' = mounts w.
Proof.
  intros M R T. eexists. split; [exact (proxy_activation_run X env w M R T)|].
  cbn. rewrite T. repeat split.
Qed.

Lemma proxy_activation_witness :
  let w := Run.registered proxy in
  mode (config (machine w)) = proxy /\
  is_Ready (state (machine w)) = true /\
  target (machine w) = None /\
  exists w',
    emitMountEvent Run.X0 Demo.fine w = (Val tt, w') /\
    state (machine w') =
      (if spawn_ret Demo.fine
       then WaitingForGadgetState (Some (nbd_client_of (machine w)))
       else ReadyState (Some (mkError operation_canceled
                                      "Failed to spawn process"))) /\
    exitCode (machine w') = (-1)%Z /\
    target (machine w') = None /\
    trace w' =
      ProcessSpawn (nbd_client_of (machine w)) (toArgs Run.X0 (config (machine w)))
      :: trace w /\
    dirs w' = dirs w /\ mounts w' = mounts w.
Proof.
  intros w.
  assert (M : mode (config (machine w)) = proxy) by (vm_compute; reflexivity).
  assert (R : is_Ready (state (machine w)) = true) by (vm_compute; reflexivity).
  assert (T : target (machine w) = None) by (vm_compute; reflexivity).
  repeat (split; [assumption|]).
  exact (proxy_activation Run.X0 Demo.fine w M R T).
Defined.

Lemma unrecognised_url_run (X : Externals) (env : Env) (w : World)
    (url : string) (rwf : bool) :
  mode (config (machine w)) = legacy ->
  is_Ready (state (machine w)) = true ->
  isCifsUrl url = false -> isHttpsUrl url = false ->
  emitMountEvent X env (retargeted w (Some (mkTarget url rwf None None))) =
    (Val tt,
     retargeted
       (moved w (ReadyState (Some (mkError invalid_argument "URL not recognized")))
              (-1) [])
       None).
Proof.
  expose_world w. expose_env env. expose_config w_config.
  cbn [machine state config target mode]. intros -> R C H.
  destruct w_state; try discriminate R.
  unfold moved, retargeted. exec_config; try congruence; reflexivity.
Qed.

Lemma createMountDir_failure_run (X : Externals) (env : Env) (w : World)
    (url : string) (rwf : bool) :
  mode (config (machine w)) = legacy ->
  is_Ready (state (machine w)) = true ->
  isCifsUrl url = true ->
  createMountDir_ret env = None ->
  emitMountEvent X env (retargeted w (Some (mkTarget url rwf None None))) =
    (Val tt,
     retargeted
       (moved w (ReadyState (Some (mkError io_error
                                            "Failed to create mount directory")))
              (-1) [SmbCreateMountDir (name (machine w))])
       None).
Proof.
  expose_world w. expose_env env. expose_config w_config.
  cbn [machine state config target mode createMountDir_ret]. intros -> R C ->.
  destruct w_state; try discriminate R.
  unfold moved, retargeted. exec_config; try congruence; reflexivity.
Qed.

Lemma https_activation_run (X : Externals) (env : Env) (w : World)
    (url : string) (rwf : bool) :
  mode (config (machine w)) = legacy ->
  is_Ready (state (machine w)) = true ->
  isCifsUrl url = false -> isHttpsUrl url = true ->
  socket_exists env = false ->
  spawn_ret env = true ->
  emitMountEvent X env (retargeted w (Some (mkTarget url rwf None None))) =
    (Val tt,
     retargeted
       (moved w (WaitingForGadgetState (Some (nbdkit_of (machine w)))) (-1)
              [ProcessSpawn (nbdkit_of (machine w))
                            (nbdkit_url_args X (machine w) url rwf)])
       (Some (mkTarget url rwf None None))).
Proof.
  expose_world w. expose_env env. expose_config w_config.
  cbn [machine state config target mode socket_exists spawn_ret].
  intros -> R C H -> ->.
  destruct w_state; try discriminate R.
  unfold moved, retargeted, nbdkit_of, nbdkit_url_args.
  exec_config; try congruence; reflexivity.
Qed.

Lemma stale_socket_run (X : Externals) (env : Env) (w : World)
    (url : string) (rwf : bool) :
  mode (config (machine w)) = legacy ->
  is_Ready (state (machine w)) = true ->
  isCifsUrl url = false -> isHttpsUrl url = true ->
  socket_exists env = true ->
  socket_remove_ret env = remove_throws ->
  emitMountEvent X env (retargeted w (Some (mkTarget url rwf None None))) =
    (Throw (filesystem_error "filesystem error: cannot remove"),
     retargeted
       (moved w ActivatingState (-1) [FsRemove (unixSocket (config (machine w)))])
       (Some (mkTarget url rwf None None))).
Proof.
  expose_world w. expose_env env. expose_config w_config.
  cbn [machine state config target mode socket_exists socket_remove_ret].
  intros -> R C H -> ->.
  destruct w_state; try discriminate R.
  unfold moved, retargeted. exec_config; try congruence; reflexivity.
Qed.

Lemma vanished_socket_run (X : Externals) (env : Env) (w : World)
    (url : string) (rwf : bool) :
  mode (config (machine w)) = legacy ->
  is_Ready (state (machine w)) = true ->
  isCifsUrl url = false -> isHttpsUrl url = true ->
  socket_exists env = true ->
  socket_remove_ret env = remove_false ->
  emitMountEvent X env (retargeted w (Some (mkTarget url rwf None None))) =
    (Val tt,
     retargeted
       (moved w (ReadyState (Some (mkError invalid_argument
                                            "Failed to mount HTTPS share")))
              (-1) [FsRemove (unixSocket (config (machine w)))])
       None).
Proof.
  expose_world w. expose_env env. expose_config w_config.
  cbn [machine state config target mode socket_exists socket_remove_ret].
  intros -> R C H -> ->.
  destruct w_state; try discriminate R.
  unfold moved, retargeted. exec_config; try congruence; reflexivity.
Qed.

Lemma insertion_run (X : Externals) (env : Env) (w : World) (p : weak_ptr_Process) :
  state (machine w) = WaitingForGadgetState p ->
  gadget_ret env = 0%Z ->
  emitEvent X env (UdevStateChangeEvent inserted) w =
    (Val tt,
     moved w (ActiveState p) (exitCode (machine w))
       [SendEvent RESOURCE_CREATED (objectPath (machine w));
        GadgetConfigure (name (machine w)) (nbdDevice (config (machine w)))
          inserted
          (Some match target (machine w) with Some t => rw t | None => false end)]).
Proof.
  expose_world w. expose_env env.
  cbn [machine state gadget_ret]. intros -> G.
  unfold moved, objectPath. exec_config; first [reflexivity | gadget_succeeded].
Qed.

Lemma Unmount_Active_run (X : Externals) (env : Env) (w : World) (p : Process) :
  state (machine w) = ActiveState (Some p) ->
  gadget_ret env = 0%Z ->
  emitEvent X env UnmountEvent w =
    (Val tt,
     moved w (WaitingForProcessEndState (Some p)) (exitCode (machine w))
       (SendEvent RESOURCE_DELETED (objectPath (machine w))
        :: (if lock_ret env then [ProcessStop p] else []) ++
        [GadgetConfigure (name (machine w)) (nbdDevice (config (machine w)))
           removed None])).
Proof.
  expose_world w. expose_env env.
  cbn [machine state gadget_ret lock_ret]. intros -> G.
  unfold moved, objectPath. exec_config; first [reflexivity | gadget_succeeded].
Qed.

Lemma exit_while_tearing_down_run (X : Externals) (env : Env) (w : World)
    (p : weak_ptr_Process) (c : Z) :
  state (machine w) = WaitingForProcessEndState p ->
  target (machine w) = None ->
  run_activity X (ProcessExit c env) w = (Val tt, moved w (ReadyState None) c []).
Proof.
  expose_world w. expose_env env.
  cbn [machine state target]. intros -> ->.
  unfold moved, run_activity, emitSubprocessStoppedEvent. exec_config; reflexivity.
Qed.

(* ------------------------------------------------------------------ *)
(** ** Whole calls *)

Lemma Unmount_wait_stops (X : Externals) k sched w wk :
  k < 120 ->
  run_waits X k sched w = (Val tt, wk) ->
  unmount_pending X k sched w = true ->
  is_Ready (state (machine wk)) = true ->
  Unmount_wait X 120 sched w = (Val tt, wk).
Proof.
  intros K R P T.
  replace 120 with (k + (120 - k)) by lia.
  rewrite (Unmount_wait_pending X k (120 - k) sched w wk R P).
  apply Unmount_wait_done. now right.
Qed.

(** X21.  After the mount event, [handleMount] (the whole of the proxy
    Mount method, and the polling part of the legacy one) polls the state
    before each 100 ms wait, at most 120 times.  If the first terminal
    state is met at poll [k < 120], it answers at once: true for Active,
    false for Ready without an error, and for Ready with an error an IPC
    error with that error's code and message.  If 120 polls pass without a
    terminal state it answers false.  In both cases [k] waits of 100 ms
    have elapsed. *)
Theorem handleMount_polling (X : Externals) (env : Env) (sched : Schedule)
    (w0 w wk : World) (k : nat) :
  emitMountEvent X env w0 = (Val tt, w) ->
  k <= 120 ->
  run_waits X k sched w = (Val tt, wk) ->
  polls_pending X k sched w = true ->
  (k < 120 -> terminal (state (machine wk)) = true) ->
  handleMount X env sched w0 =
    (if Nat.ltb k 120 then poll_outcome (state (machine wk)) else Val false, wk) /\
  clock_ms wk = clock_ms w + 100 * k.
Proof.
  intros E K R P T. split; [|exact (run_waits_clock X k sched w wk R)].
  unfold handleMount, bind, try_catch. rewrite E.
  replace 120 with (k + (120 - k)) at 1 by lia.
  rewrite (handleMount_wait_pending X k (120 - k) sched w wk R P).
  destruct (Nat.ltb_spec k 120) as [L|L].
  - replace (120 - k) with (S (119 - k)) by lia.
    exact (handleMount_wait_terminal X (119 - k) (skipn k sched) wk (T L)).
  - replace (120 - k) with 0 by lia. reflexivity.
Qed.

Lemma handleMount_polling_witness :
  let sched := [[DeviceChange "/dev/nbd0" inserted Demo.fine]] in
  let w0 := Run.registered proxy in
  let w := Run.proxy_waiting in
  let wk := Run.after_one_wait in
  emitMountEvent Run.X0 Demo.fine w0 = (Val tt, w) /\
  1 <= 120 /\
  run_waits Run.X0 1 sched w = (Val tt, wk) /\
  polls_pending Run.X0 1 sched w = true /\
  (1 < 120 -> terminal (state (machine wk)) = true) /\
  handleMount Run.X0 Demo.fine sched w0 =
    (if Nat.ltb 1 120 then poll_outcome (state (machine wk)) else Val false, wk) /\
  clock_ms wk = clock_ms w + 100 * 1.
Proof.
  intros sched w0 w wk.
  assert (E : emitMountEvent Run.X0 Demo.fine w0 = (Val tt, w))
    by (vm_compute; reflexivity).
  assert (K : 1 <= 120) by lia.
  assert (R : run_waits Run.X0 1 sched w = (Val tt, wk))
    by (vm_compute; reflexivity).
  assert (P : polls_pending Run.X0 1 sched w = true)
    by (vm_compute; reflexivity).
  assert (T : 1 < 120 -> terminal (state (machine wk)) = true)
    by (intros _; vm_compute; reflexivity).
  repeat (split; [assumption|]).
  exact (handleMount_polling Run.X0 Demo.fine sched w0 w wk 1 E K R P T).
Defined.

(** The proxy Mount of the worked example answers true after one wait. *)
Example Mount_proxy_happy_path :
  fst (Mount_proxy Run.X0 Demo.fine
         [[DeviceChange "/dev/nbd0" inserted Demo.fine]] (Run.registered proxy))
    = Val true.
Proof. vm_compute. reflexivity. Qed.

(** Without any notification it answers false after 120 waits, 12 s. *)
Example Mount_proxy_timeout :
  let r := Mount_proxy Run.X0 Demo.fine [] (Run.registered proxy) in
  fst r = Val false /\ clock_ms (snd r) = 120 * 100 /\
  is_WaitingForGadget (state (machine (snd r))) = true.
Proof. vm_compute. repeat split. Qed.

(** X13.  A legacy Mount with a URL that is neither [smb://] nor
    [https://] makes no outward call and leaves the slot in Ready with
    (invalid_argument, "URL not recognized") and no target.  The method
    then handles the error by resetting the credentials of the target,
    which [ReadyState::onEnter] has already reset: the call ends in an
    access to the empty optional, not in the IPC error. *)
Theorem legacy_Mount_unrecognised_url (X : Externals) (url : string)
    (rwf : bool) (i : Z) (garbage : nat -> ascii) (env : Env)
    (sched : Schedule) (w : World) :
  mode (config (machine w)) = legacy ->
  is_Ready (state (machine w)) = true ->
  isCifsUrl url = false -> isHttpsUrl url = false ->
  exists w',
    Mount_legacy X url rwf (fd_int i) garbage env sched w =
      (Undefined "machine.target accessed while empty", w') /\
    state (machine w') =
      ReadyState (Some (mkError invalid_argument "URL not recognized")) /\
    target (machine w') = None /\
    trace w' = trace w /\ dirs w' = dirs w /\ mounts w' = mounts w /\
    clock_ms w' = clock_ms w.
Proof.
  intros M R C H.
  pose proof (unrecognised_url_run X env w url rwf M R C H) as E.
  set (w2 := retargeted
               (moved w (ReadyState (Some (mkError invalid_argument
                                                   "URL not recognized")))
                      (-1) []) None) in *.
  exists w2. split; [|repeat split].
  rewrite (Mount_legacy_polls X url rwf i garbage env sched w w2 w2 0 E);
    try reflexivity. lia.
Qed.

Lemma legacy_Mount_unrecognised_url_witness :
  let w := Run.registered legacy in
  mode (config (machine w)) = legacy /\
  is_Ready (state (machine w)) = true /\
  isCifsUrl "ftp://x/y" = false /\ isHttpsUrl "ftp://x/y" = false /\
  exists w',
    Mount_legacy Run.X0 "ftp://x/y" false (fd_int 0) Run.stale Demo.fine [] w =
      (Undefined "machine.target accessed while empty", w') /\
    state (machine w') =
      ReadyState (Some (mkError invalid_argument "URL not recognized")) /\
    target (machine w') = None /\
    trace w' = trace w /\ dirs w' = dirs w /\ mounts w' = mounts w /\
    clock_ms w' = clock_ms w.
Proof.
  intros w.
  assert (M : mode (config (machine w)) = legacy) by (vm_compute; reflexivity).
  assert (R : is_Ready (state (machine w)) = true) by (vm_compute; reflexivity).
  assert (C : isCifsUrl "ftp://x/y" = false) by (vm_compute; reflexivity).
  assert (H : isHttpsUrl "ftp://x/y" = false) by (vm_compute; reflexivity).
  repeat (split; [assumption|]).
  exact (legacy_Mount_unrecognised_url Run.X0 "ftp://x/y" false 0 Run.stale
           Demo.fine [] w M R C H).
Defined.

Lemma wait_for_insertion (X : Externals) (env : Env) (w : World)
    (p : weak_ptr_Process) :
  state (machine w) = WaitingForGadgetState p ->
  gadget_ret env = 0%Z ->
  timer_wait X [DeviceChange (nbdDevice (config (machine w))) inserted env] w =
    (Val tt,
     moved (later w 100) (ActiveState p) (exitCode (machine w))
       [SendEvent RESOURCE_CREATED (objectPath (machine w));
        GadgetConfigure (name (machine w)) (nbdDevice (config (machine w)))
          inserted
          (Some match target (machine w) with Some t => rw t | None => false end)]).
Proof.
  intros S G.
  unfold timer_wait. unfold bind at 1.
  change (tick 100 w) with (Val tt, later w 100).
  cbn [run_activities]. unfold bind, run_activity, emitUdevStateChangeEvent,
    bind, get_machine.
  change (config (machine (later w 100))) with (config (machine w)).
  rewrite String.eqb_refl.
  rewrite (insertion_run X env (later w 100) p S G). reflexivity.
Qed.

Lemma wait_for_exit (X : Externals) (env : Env) (w : World)
    (p : weak_ptr_Process) (c : Z) :
  state (machine w) = WaitingForProcessEndState p ->
  target (machine w) = None ->
  timer_wait X [ProcessExit c env] w =
    (Val tt, moved (later w 100) (ReadyState None) c []).
Proof.
  intros S T.
  unfold timer_wait. unfold bind at 1.
  change (tick 100 w) with (Val tt, later w 100).
  cbn [run_activities]. unfold bind.
  rewrite (exit_while_tearing_down_run X env (later w 100) p c S T). reflexivity.
Qed.

(** X14.  The legacy happy path for an HTTPS image.  On a legacy slot in
    Ready, with no stale socket, a successful spawn of the NBD server and
    the [inserted] notification of the slot's device arriving during the
    first wait (gadget configured), [Mount(url, rw)] answers true after one
    100 ms wait; the slot is Active, and the properties read back what was
    mounted: ImageURL is [url] and WriteProtected is the negation of [rw].
    No directory or mount is touched. *)
Theorem legacy_https_Mount_succeeds (X : Externals) (url : string) (rwf : bool)
    (i : Z) (garbage : nat -> ascii) (env env2 : Env) (rest : Schedule)
    (w : World) :
  mode (config (machine w)) = legacy ->
  is_Ready (state (machine w)) = true ->
  isHttpsUrl url = true ->
  socket_exists env = false ->
  spawn_ret env = true ->
  gadget_ret env2 = 0%Z ->
  let sched :=
    [DeviceChange (nbdDevice (config (machine w))) inserted env2] :: rest in
  exists w',
    Mount_legacy X url rwf (fd_int i) garbage env sched w = (Val true, w') /\
    fst (Active_get w') = Val true /\
    fst (ImageURL_get w') = Val url /\
    fst (WriteProtected_get w') = Val (negb rwf) /\
    clock_ms w' = clock_ms w + 100 /\
    dirs w' = dirs w /\ mounts w' = mounts w.
Proof.
  intros M R H S SP G sched.
  assert (C : isCifsUrl url = false).
  { destruct (isCifsUrl url) eqn:C; [|reflexivity].
    apply isCifsUrl_not_https in C. congruence. }
  pose proof (https_activation_run X env w url rwf M R C H S SP) as E.
  set (tgt := mkTarget url rwf None None) in *.
  set (w2 := retargeted
               (moved w (WaitingForGadgetState (Some (nbdkit_of (machine w))))
                      (-1)
                      [ProcessSpawn (nbdkit_of (machine w))
                                    (nbdkit_url_args X (machine w) url rwf)])
               (Some tgt)) in *.
  pose proof (wait_for_insertion X env2 w2 (Some (nbdkit_of (machine w)))
                eq_refl G) as W.
  change (nbdDevice (config (machine w2))) with (nbdDevice (config (machine w))) in W.
  match type of W with _ = (_, ?wk0) => set (wk := wk0) in * end.
  assert (RW : run_waits X 1 sched w2 = (Val tt, wk)).
  { cbn [run_waits]. unfold sched. cbn [hd tl]. unfold bind. now rewrite W. }
  assert (K : 1 < 120) by lia.
  rewrite (Mount_legacy_polls X url rwf i garbage env sched w w2 wk 1 E K RW
             eq_refl eq_refl).
  change (target (machine wk)) with (Some tgt).
  eexists. split; [reflexivity|].
  repeat split. cbn. now destruct rwf.
Qed.

Lemma legacy_https_Mount_succeeds_witness :
  let w := Run.registered legacy in
  let url := "https://host/image.iso" in
  let sched :=
    [DeviceChange (nbdDevice (config (machine w))) inserted Demo.fine] :: [] in
  mode (config (machine w)) = legacy /\
  is_Ready (state (machine w)) = true /\
  isHttpsUrl url = true /\
  socket_exists Demo.fine = false /\
  spawn_ret Demo.fine = true /\
  gadget_ret Demo.fine = 0%Z /\
  exists w',
    Mount_legacy Run.X0 url true (fd_int 0) Run.stale Demo.fine sched w
      = (Val true, w') /\
    fst (Active_get w') = Val true /\
    fst (ImageURL_get w') = Val url /\
    fst (WriteProtected_get w') = Val (negb true) /\
    clock_ms w' = clock_ms w + 100 /\
    dirs w' = dirs w /\ mounts w' = mounts w.
Proof.
  intros w url sched.
  assert (M : mode (config (machine w)) = legacy) by (vm_compute; reflexivity).
  assert (R : is_Ready (state (machine w)) = true) by (vm_compute; reflexivity).
  assert (H : isHttpsUrl url = true) by (vm_compute; reflexivity).
  assert (S : socket_exists Demo.fine = false) by reflexivity.
  assert (SP : spawn_ret Demo.fine = true) by reflexivity.
  assert (G : gadget_ret Demo.fine = 0%Z) by reflexivity.
  repeat (split; [assumption|]).
  exact (legacy_https_Mount_succeeds Run.X0 url true 0 Run.stale Demo.fine
           Demo.fine [] w M R H S SP G).
Defined.

(** X15.  A whole proxy cycle.  From Ready, [Mount] (client spawned, device
    inserted during the first wait, gadget configured) answers true with
    the slot Active; then [Unmount] (gadget removed, subprocess exiting
    with code [c] during the first wait) answers true with the slot back in
    Ready without an error.  The exit code reads [c], 200 ms have passed,
    directories and mounts are as before, and the Redfish events of the
    cycle are one RESOURCE_CREATED followed by one RESOURCE_DELETED (the
    trace lists the newest first). *)
Theorem proxy_Mount_Unmount_cycle (X : Externals) (env1 env2 env3 env4 : Env)
    (rest1 rest2 : Schedule) (c : Z) (w : World) :
  mode (config (machine w)) = proxy ->
  is_Ready (state (machine w)) = true ->
  target (machine w) = None ->
  spawn_ret env1 = true ->
  gadget_ret env2 = 0%Z ->
  gadget_ret env3 = 0%Z ->
  let up := [DeviceChange (nbdDevice (config (machine w))) inserted env2] :: rest1 in
  let down := [ProcessExit c env4] :: rest2 in
  exists w1 w2,
    Mount_proxy X env1 up w = (Val true, w1) /\
    is_Active (state (machine w1)) = true /\
    Unmount X env3 down w1 = (Val true, w2) /\
    state (machine w2) = ReadyState None /\
    target (machine w2) = None /\
    exitCode (machine w2) = c /\
    clock_ms w2 = clock_ms w + 200 /\
    dirs w2 = dirs w /\ mounts w2 = mounts w /\
    exists new,
      trace w2 = new ++ trace w /\
      redfish new = [(RESOURCE_DELETED, objectPath (machine w));
                     (RESOURCE_CREATED, objectPath (machine w))].
Proof.
  intros M R T SP G2 G3 up down.
  pose proof (proxy_activation_run X env1 w M R T) as E. rewrite SP in E.
  match type of E with _ = (_, ?x) => set (wa := x) in * end.
  pose proof (wait_for_insertion X env2 wa (Some (nbd_client_of (machine w)))
                eq_refl G2) as W.
  change (nbdDevice (config (machine wa))) with (nbdDevice (config (machine w))) in W.
  match type of W with _ = (_, ?x) => set (w1 := x) in * end.
  assert (RW : run_waits X 1 up wa = (Val tt, w1)).
  { cbn [run_waits]. unfold up. cbn [hd tl]. unfold bind. now rewrite W. }
  assert (K : 1 < 120) by lia.
  assert (MP : Mount_proxy X env1 up w = (Val true, w1)).
  { unfold Mount_proxy, handleMount, bind, try_catch. rewrite E.
    exact (handleMount_wait_stops X 1 up wa w1 K RW eq_refl eq_refl). }
  pose proof (Unmount_Active_run X env3 w1 (nbd_client_of (machine w)) eq_refl G3)
    as U.
  match type of U with _ = (_, ?x) => set (wu := x) in * end.
  pose proof (wait_for_exit X env4 wu (Some (nbd_client_of (machine w))) c
                eq_refl T) as WE.
  match type of WE with _ = (_, ?x) => set (w2 := x) in * end.
  assert (RW2 : run_waits X 1 down wu = (Val tt, w2)).
  { cbn [run_waits]. unfold down. cbn [hd tl]. unfold bind. now rewrite WE. }
  exists w1, w2.
  split; [exact MP|]. split; [reflexivity|].
  split.
  { unfold Unmount, bind, try_catch, emitUnmountEvent. rewrite U.
    now rewrite (Unmount_wait_stops X 1 down wu w2 K RW2 eq_refl eq_refl). }
  split; [reflexivity|]. split; [exact T|]. split; [reflexivity|].
  split; [cbn; lia|]. split; [reflexivity|]. split; [reflexivity|].
  eexists. split.
  - unfold w2, wu, w1, wa, moved, later. cbn [trace machine].
    rewrite !app_assoc. reflexivity.
  - rewrite !redfish_app. destruct (lock_ret env3); reflexivity.
Qed.

Lemma proxy_Mount_Unmount_cycle_witness :
  let w := Run.registered proxy in
  let up := [DeviceChange (nbdDevice (config (machine w))) inserted Demo.fine] :: [] in
  let down := [ProcessExit 0 Demo.fine] :: [] in
  mode (config (machine w)) = proxy /\
  is_Ready (state (machine w)) = true /\
  target (machine w) = None /\
  spawn_ret Demo.fine = true /\
  gadget_ret Demo.fine = 0%Z /\
  exists w1 w2,
    Mount_proxy Run.X0 Demo.fine up w = (Val true, w1) /\
    is_Active (state (machine w1)) = true /\
    Unmount Run.X0 Demo.fine down w1 = (Val true, w2) /\
    state (machine w2) = ReadyState None /\
    target (machine w2) = None /\
    exitCode (machine w2) = 0%Z /\
    clock_ms w2 = clock_ms w + 200 /\
    dirs w2 = dirs w /\ mounts w2 = mounts w /\
    exists new,
      trace w2 = new ++ trace w /\
      redfish new = [(RESOURCE_DELETED, objectPath (machine w));
                     (RESOURCE_CREATED, objectPath (machine w))].
Proof.
  intros w up down.
  assert (M : mode (config (machine w)) = proxy) by (vm_compute; reflexivity).
  assert (R : is_Ready (state (machine w)) = true) by (vm_compute; reflexivity).
  assert (T : target (machine w) = None) by (vm_compute; reflexivity).
  assert (SP : spawn_ret Demo.fine = true) by reflexivity.
  assert (G : gadget_ret Demo.fine = 0%Z) by reflexivity.
  repeat (split; [assumption|]).
  exact (proxy_Mount_Unmount_cycle Run.X0 Demo.fine Demo.fine Demo.fine Demo.fine
           [] [] 0 w M R T SP G G).
Defined.

(* ------------------------------------------------------------------ *)
(** ** Subprocess exit and failed activations *)

(** X16.  The completion callback of the subprocess always completes, and
    on a registered slot it ends in Ready whatever the state was: the exit
    code it was given is the one ExitCode reads, and the target is
    cleared. *)
Theorem subprocess_exit_returns_to_Ready (X : Externals) (env : Env) (c : Z)
    (w : World) :
  state (machine w) <> InitialState ->
  exists w',
    run_activity X (ProcessExit c env) w = (Val tt, w') /\
    is_Ready (state (machine w')) = true /\
    fst (ExitCode_get w') = Val c /\
    target (machine w') = None.
Proof.
  expose_world w. expose_env env. cbn [machine state]. intros N.
  unfold run_activity, emitSubprocessStoppedEvent, ExitCode_get.
  destruct w_state; [now elim N| | | | |];
    exec; eexists; repeat split.
Qed.

Lemma subprocess_exit_returns_to_Ready_witness :
  state (machine Run.proxy_active) <> InitialState /\
  exists w',
    run_activity Run.X0 (ProcessExit 3 Demo.fine) Run.proxy_active = (Val tt, w') /\
    is_Ready (state (machine w')) = true /\
    fst (ExitCode_get w') = Val 3%Z /\
    target (machine w') = None.
Proof.
  assert (N : state (machine Run.proxy_active) <> InitialState)
    by (vm_compute; discriminate).
  split; [exact N|].
  exact (subprocess_exit_returns_to_Ready Run.X0 Demo.fine 3 Run.proxy_active N).
Defined.

(** X17.  If the scratch directory for an [smb://] URL cannot be created,
    the activation stops there: the slot is in Ready with
    (io_error, "Failed to create mount directory"), the target is cleared,
    and the only outward call made is the attempt to create the directory:
    no CIFS mount, no subprocess. *)
Theorem scratch_directory_creation_failure (X : Externals) (env : Env)
    (w : World) (url : string) (rwf : bool) :
  mode (config (machine w)) = legacy ->
  is_Ready (state (machine w)) = true ->
  isCifsUrl url = true ->
  createMountDir_ret env = None ->
  exists w',
    emitMountEvent X env (retargeted w (Some (mkTarget url rwf None None)))
      = (Val tt, w') /\
    state (machine w') =
      ReadyState (Some (mkError io_error "Failed to create mount directory")) /\
    target (machine w') = None /\
    trace w' = SmbCreateMountDir (name (machine w)) :: trace w /\
    dirs w' = dirs w /\ mounts w' = mounts w.
Proof.
  intros M R C D. eexists.
  split; [exact (createMountDir_failure_run X env w url rwf M R C D)|].
  repeat split.
Qed.

Lemma scratch_directory_creation_failure_witness :
  let w := Run.registered legacy in
  let url := "smb://host/share/sub/file.iso" in
  mode (config (machine w)) = legacy /\
  is_Ready (state (machine w)) = true /\
  isCifsUrl url = true /\
  createMountDir_ret Cases.no_directory = None /\
  exists w',
    emitMountEvent Run.X0 Cases.no_directory
      (retargeted w (Some (mkTarget url false None None))) = (Val tt, w') /\
    state (machine w') =
      ReadyState (Some (mkError io_error "Failed to create mount directory")) /\
    target (machine w') = None /\
    trace w' = SmbCreateMountDir (name (machine w)) :: trace w /\
    dirs w' = dirs w /\ mounts w' = mounts w.
Proof.
  intros w url.
  assert (M : mode (config (machine w)) = legacy) by (vm_compute; reflexivity).
  assert (R : is_Ready (state (machine w)) = true) by (vm_compute; reflexivity).
  assert (C : isCifsUrl url = true) by (vm_compute; reflexivity).
  assert (D : createMountDir_ret Cases.no_directory = None) by reflexivity.
  repeat (split; [assumption|]).
  exact (scratch_directory_creation_failure Run.X0 Cases.no_directory w url false
           M R C D).
Defined.

(** X18.  A socket file left from an earlier run stops the activation of
    an HTTPS image before any process is spawned; the attempt to remove
    the socket is the only outward call.  When the file cannot be removed,
    [fs::remove] throws; nothing in the machine catches the
    filesystem_error, which leaves the Mount event with the slot in
    Activating, the target still set and the exit code reset.  When the
    file is gone by the time [fs::remove] runs, so that it returns false,
    the slot goes to Ready with (invalid_argument, "Failed to mount HTTPS
    share") and the target is cleared. *)
Theorem stale_socket_blocks_spawn (X : Externals) (env : Env) (w : World)
    (url : string) (rwf : bool) :
  mode (config (machine w)) = legacy ->
  is_Ready (state (machine w)) = true ->
  isHttpsUrl url = true ->
  socket_exists env = true ->
  socket_remove_ret env <> remove_true ->
  exists r w',
    emitMountEvent X env (retargeted w (Some (mkTarget url rwf None None)))
      = (r, w') /\
    trace w' = FsRemove (unixSocket (config (machine w))) :: trace w /\
    exitCode (machine w') = (-1)%Z /\
    match socket_remove_ret env with
    | remove_throws =>
        (exists what, r = Throw (filesystem_error what)) /\
        state (machine w') = ActivatingState /\
        target (machine w') = Some (mkTarget url rwf None None)
    | _ =>
        r = Val tt /\
        state (machine w') =
          ReadyState (Some (mkError invalid_argument
                                    "Failed to mount HTTPS share")) /\
        target (machine w') = None
    end.
Proof.
  intros M R H S SR.
  assert (C : isCifsUrl url = false).
  { destruct (isCifsUrl url) eqn:C; [|reflexivity].
    apply isCifsUrl_not_https in C. congruence. }
  destruct (socket_remove_ret env) eqn:RR; [now elim SR| |].
  - do 2 eexists.
    split; [exact (vanished_socket_run X env w url rwf M R C H S RR)|].
    repeat split.
  - do 2 eexists.
    split; [exact (stale_socket_run X env w url rwf M R C H S RR)|].
    repeat split. now eexists.
Qed.

Lemma stale_socket_blocks_spawn_witness :
  let w := Run.registered legacy in
  let url := "https://host/image.iso" in
  let env := Cases.stale_socket in
  mode (config (machine w)) = legacy /\
  is_Ready (state (machine w)) = true /\
  isHttpsUrl url = true /\
  socket_exists env = true /\
  socket_remove_ret env <> remove_true /\
  exists r w',
    emitMountEvent Run.X0 env (retargeted w (Some (mkTarget url false None None)))
      = (r, w') /\
    trace w' = FsRemove (unixSocket (config (machine w))) :: trace w /\
    exitCode (machine w') = (-1)%Z /\
    match socket_remove_ret env with
    | remove_throws =>
        (exists what, r = Throw (filesystem_error what)) /\
        state (machine w') = ActivatingState /\
        target (machine w') = Some (mkTarget url false None None)
    | _ =>
        r = Val tt /\
        state (machine w') =
          ReadyState (Some (mkError invalid_argument
                                    "Failed to mount HTTPS share")) /\
        target (machine w') = None
    end.
Proof.
  intros w url env.
  assert (M : mode (config (machine w)) = legacy) by (vm_compute; reflexivity).
  assert (R : is_Ready (state (machine w)) = true) by (vm_compute; reflexivity).
  assert (H : isHttpsUrl url = true) by (vm_compute; reflexivity).
  assert (S : socket_exists env = true) by reflexivity.
  assert (SR : socket_remove_ret env <> remove_true) by discriminate.
  repeat (split; [assumption|]).
  exact (stale_socket_blocks_spawn Run.X0 env w url false M R H S SR).
Defined.

(** The two outcomes on the slot of the worked examples: an unremovable
    socket leaves it in Activating, a vanished one takes it to Ready. *)
Example stale_and_vanished_socket :
  let w := retargeted (Run.registered legacy)
             (Some (mkTarget "https://host/image.iso" false None None)) in
  let stuck := emitMountEvent Run.X0 Cases.stale_socket w in
  let gone := emitMountEvent Run.X0 Cases.vanished_socket w in
  fst stuck = Throw (filesystem_error "filesystem error: cannot remove") /\
  state (machine (snd stuck)) = ActivatingState /\
  fst gone = Val tt /\
  state (machine (snd gone)) =
    ReadyState (Some (mkError invalid_argument "Failed to mount HTTPS share")).
Proof. vm_compute. repeat split. Qed.


(* ------------------------------------------------------------------ *)
(** ** The application *)

Section ApplicationFacts.

Variable X : Externals.
Variable env_of : string -> Env.

Lemma slot_after_notification_refl dev m : slot_after_notification dev m m.
Proof. repeat split. Qed.

Lemma notify_one_slot dev change env m s :
  slot_after_notification dev m
    (machine (snd (emitUdevStateChangeEvent X env dev change (attach m s)))).
Proof.
  unfold emitUdevStateChangeEvent, bind, get_machine.
  change (machine (attach m s)) with m.
  destruct (String.eqb_spec (nbdDevice (config m)) dev) as [E|E].
  - pose proof (emitEvent_spec X env (UdevStateChangeEvent change) (attach m s)) as P.
    destruct (emitEvent X env (UdevStateChangeEvent change) (attach m s))
      as [r w']. cbn [snd].
    destruct P as [[(A & B & _) _] _].
    split; [exact A | split; [exact B | intros N; now elim N]].
  - cbn. apply slot_after_notification_refl.
Qed.

(** X19.  A device notification is offered to every slot, and changes only
    the slots configured with that device: every other slot comes out as
    the very same machine (state, target and exit code included); no slot
    is added, dropped or reordered, and none changes its name or
    configuration. *)
Theorem notification_reaches_only_its_slots (dev : NBDDevice)
    (change : StateChange) (mpsm : list MountPointStateMachine) (s : Shared) :
  Forall2 (slot_after_notification dev) mpsm
    (snd (fst (App_deviceChange X env_of dev change mpsm s))).
Proof.
  unfold App_deviceChange. revert s.
  induction mpsm as [|m rest IH]; intros s; [constructor|].
  cbn [for_entries].
  pose proof (notify_one_slot dev change (env_of (name m)) m s) as H.
  destruct (emitUdevStateChangeEvent X (env_of (name m)) dev change (attach m s))
    as [[[]|e|u|] w']; cbn [snd] in H.
  - specialize (IH (shared_of w')).
    destruct (for_entries _ rest (shared_of w')) as [[r rest'] s'].
    cbn [fst snd] in *. now constructor.
  - cbn [fst snd]. constructor; [exact H|].
    clear. induction rest; constructor; auto using slot_after_notification_refl.
  - cbn [fst snd]. constructor; [exact H|].
    clear. induction rest; constructor; auto using slot_after_notification_refl.
  - cbn [fst snd]. constructor; [exact H|].
    clear. induction rest; constructor; auto using slot_after_notification_refl.
Qed.

Lemma register_run env slotName entry s :
  emitRegisterDBusEvent X env (attach (new_machine slotName entry) s) =
    (Val tt,
     moved (attach (new_machine slotName entry) s) (ReadyState None) (-1)
       [ForceUdevChange;
        AddInterface (objectPath (new_machine slotName entry))
          ("xyz.openbmc_project.VirtualMedia." ++
           match mode entry with legacy => "Legacy" | proxy => "Proxy" end);
        AddInterface (objectPath (new_machine slotName entry))
          "xyz.openbmc_project.VirtualMedia.Process";
        AddInterface (objectPath (new_machine slotName entry))
          "xyz.openbmc_project.VirtualMedia.MountPoint"]).
Proof.
  destruct s. destruct entry as [[|] dv sk ep]; reflexivity.
Qed.

(** X20.  Construction of the application: every configured mount point
    gets its machine, in the order of the configuration; each machine is
    registered once and stands in Ready with no error, no target and exit
    code -1; registration exports three interfaces and forces one udev
    re-scan per slot, sends no Redfish event, and touches no directory or
    mount. *)
Theorem App_construct_registers_all (mountPoints : list (string * MountPoint))
    (s : Shared) :
  let r := App_construct X env_of mountPoints s in
  fst (fst r) = Val tt /\
  Forall2 registered_for mountPoints (snd (fst r)) /\
  sh_dirs (snd r) = sh_dirs s /\
  sh_mounts (snd r) = sh_mounts s /\
  (exists new,
     sh_trace (snd r) = new ++ sh_trace s /\
     List.length new = 4 * List.length mountPoints /\
     redfish new = []).
Proof.
  revert s. induction mountPoints as [|[n e] rest IH]; intros s.
  - cbn. repeat split; try constructor. now exists [].
  - cbn [App_construct]. rewrite register_run.
    match goal with |- context [App_construct X env_of rest ?s1] =>
      specialize (IH s1); destruct (App_construct X env_of rest s1)
        as [[r rest'] s'] end.
    cbn [fst snd] in *. destruct IH as (R & F & D & M & new & T & L & RF).
    split; [exact R|]. split; [constructor; [reflexivity | exact F]|].
    split; [exact D|]. split; [exact M|].
    eexists. split; [rewrite T; cbn [shared_of moved trace sh_trace attach];
                     rewrite app_assoc; reflexivity|].
    split.
    + rewrite length_app, L. cbn [List.length]. lia.
    + rewrite redfish_app, RF. reflexivity.
Qed.

End ApplicationFacts.

(** At start-up of the two-slot example both slots are in Ready, and an
    [inserted] notification for [/dev/nbd1] leaves [Slot_0] as it is. *)
Example two_slots_start_up :
  let app := App_construct Run.X0 (fun _ => Demo.fine) two_slots nothing_yet in
  let seen :=
    App_deviceChange Run.X0 (fun _ => Demo.fine) "/dev/nbd1" inserted
      (snd (fst app)) (snd app) in
  map state (snd (fst app)) = [ReadyState None; ReadyState None] /\
  snd (fst seen) = snd (fst app).
Proof. vm_compute. split; reflexivity. Qed.
